(** * Extraction of Yahoo datasets from Redis: a shallow embedding

    Source: [analysis_engine/yahoo/extract_df_from_redis.py].

    The module has four entry points.  [extract_pricing_dataset] and
    [extract_yahoo_news_dataset] copy the work dictionary, fill in the
    cache keys from a legacy alias field and delegate to
    [extract_utils.perform_extract].  [extract_option_calls_dataset] and
    [extract_option_puts_dataset] fetch a record from Redis themselves,
    decode one side of the option chain with [pandas.read_json] and hand
    the table to [scrub_utils.extract_scrub_dataset].

    Python objects are embedded as values of [pyval]; dictionaries that
    the code may update in place (the work dictionary and its copy) live
    in a heap of dictionary objects addressed by location, so that
    aliasing and the absence of writes can be stated.  Calls to the
    collaborators, log lines and the [print] are recorded as events. *)

From stdpp Require Import gmap strings list fin_maps.
From Stdlib Require Import ZArith Lia.

Open Scope Z_scope.
Open Scope string_scope.
Open Scope list_scope.

(** ** Python values and exceptions *)

(** Instances of [Exception].  [except Exception] catches every one of
    them; [KeyboardInterrupt] and [SystemExit] are outside the model. *)
Inductive exn : Type :=
| KeyError (key : string)
| TypeError
| AttributeError
| ValueError (msg : string)
| RaisedBy (who : string) (msg : string).

(** Immutable Python values.  [VTuple] matters: the trailing commas on
    the lines that read [redis_host], [redis_port] and [redis_db] build
    one-element tuples. *)
#[warnings="-register-all"]
Inductive pyval : Type :=
| VNone
| VInt (z : Z)
| VStr (s : string)
| VTuple (items : list pyval)
| VDict (entries : gmap string pyval)
| VExn (e : exn).

(** [v[k]] for a string key [k]: only dictionaries can be subscripted
    that way; a missing key is a [KeyError], any other value a
    [TypeError]. *)
Definition py_getitem (v : pyval) (k : string) : exn + pyval :=
  match v with
  | VDict d =>
      match d !! k with
      | Some x => inr x
      | None => inl (KeyError k)
      end
  | _ => inl TypeError
  end.

(** Nested subscripts such as [redis_rec['rec']['data']['exp_date']]. *)
Fixpoint py_path (v : pyval) (ks : list string) : exn + pyval :=
  match ks with
  | [] => inr v
  | k :: ks' =>
      match py_getitem v k with
      | inr x => py_path x ks'
      | inl e => inl e
      end
  end.

(** [v == n] for an integer constant [n]. *)
Definition py_eq_int (v : pyval) (n : Z) : bool :=
  match v with
  | VInt z => bool_decide (z = n)
  | _ => false
  end.

(** ** Collaborator interfaces *)

(** Result of evaluating a Python expression or call. *)
Inductive outcome (A : Type) : Type :=
| Return (a : A)
| Raise (e : exn).
Arguments Return {A} a.
Arguments Raise {A} e.

(** Keyword arguments of [redis_get.get_data_from_redis_key]. *)
Record redis_get_args : Type := RedisGetArgs {
  rg_label : string;
  rg_host : pyval;
  rg_port : pyval;
  rg_db : pyval;
  rg_password : pyval;
  rg_key : pyval
}.

(** Keyword arguments of [scrub_utils.extract_scrub_dataset]; [sc_df]
    is [None] when no table was decoded. *)
Record scrub_args (DF : Type) : Type := ScrubArgs {
  sc_label : string;
  sc_scrub_mode : string;
  sc_datafeed_type : Z;
  sc_msg_format : string;
  sc_ds_id : pyval;
  sc_df : option DF
}.
Arguments ScrubArgs {DF}.
Arguments sc_label {DF}.
Arguments sc_scrub_mode {DF}.
Arguments sc_datafeed_type {DF}.
Arguments sc_msg_format {DF}.
Arguments sc_ds_id {DF}.
Arguments sc_df {DF}.

(** What the module imports and does not define: the status and
    datafeed constants of [analysis_engine.consts] and
    [analysis_engine.yahoo.consts], the string helpers, [str()],
    [len(df.index)], and the four callable collaborators.  They are
    parameters of the development.  [perform_extract] receives the
    dictionary object [req] and may update it, so it returns the final
    contents of that object next to its outcome. *)
Class Collaborators : Type := {
  DataFrame : Type;
  SUCCESS : Z;
  ERR : Z;
  NOT_RUN : Z;
  DATAFEED_PRICING_YAHOO : Z;
  DATAFEED_OPTIONS_YAHOO : Z;
  DATAFEED_NEWS_YAHOO : Z;
  get_status : pyval -> string;
  get_datafeed_str_yahoo : Z -> string;
  py_str : pyval -> string;
  df_index_len : DataFrame -> Z;
  get_data_from_redis_key : redis_get_args -> outcome pyval;
  read_json : pyval -> outcome DataFrame;
  extract_scrub_dataset : scrub_args DataFrame -> outcome (option DataFrame);
  perform_extract :
    Z -> string -> gmap string pyval -> string ->
    outcome (pyval * option DataFrame) * gmap string pyval
}.

(** ** Heap, events and the evaluation monad *)

Abbreviation loc := nat.

(** Dictionary objects, addressed by their position. *)
Abbreviation heap := (list (gmap string pyval)).

Inductive log_level : Type := INFO | ERROR.

Section Monad.
Context {DF : Type}.

(** Observable actions, in the order the code performs them.  A log
    line is recorded as its format string and the arguments of
    [format]. *)
Inductive event : Type :=
| Log (level : log_level) (fmt : string) (args : list pyval)
| Print (v : pyval)
| CallRedisGet (a : redis_get_args)
| CallReadJson (json : pyval)
| CallScrub (a : scrub_args DF)
| CallPerformExtract (df_type : Z) (df_str : string) (req : loc)
    (contents : gmap string pyval) (scrub_mode : string).

Record run (A : Type) : Type := Run {
  out : outcome A;
  hp : heap;
  evs : list event
}.
Arguments Run {A}.
Arguments out {A}.
Arguments hp {A}.
Arguments evs {A}.

Definition M (A : Type) : Type := heap -> run A.

Definition ret {A} (a : A) : M A := fun h => Run (Return a) h [].

Definition raise {A} (e : exn) : M A := fun h => Run (Raise e) h [].

(** [prepend es r]: the run [r] preceded by the events [es]. *)
Definition prepend {A} (es : list event) (r : run A) : run A :=
  match r with
  | Run o h es' => Run o h (es ++ es')
  end.

Definition bind {A B} (m : M A) (k : A -> M B) : M B := fun h =>
  match m h with
  | Run (Return a) h1 es1 => prepend es1 (k a h1)
  | Run (Raise e) h1 es1 => Run (Raise e) h1 es1
  end.

(** [try: ... except Exception as e:] around a block: the block's
    exception, if any, becomes a value; its writes and events stay. *)
Definition try_except {A} (m : M A) : M (exn + A) := fun h =>
  match m h with
  | Run (Return a) h1 es1 => Run (Return (inr a)) h1 es1
  | Run (Raise e) h1 es1 => Run (Return (inl e)) h1 es1
  end.

Definition emit (ev : event) : M unit := fun h => Run (Return tt) h [ev].

Definition lift {A} (x : exn + A) : M A :=
  match x with
  | inr a => ret a
  | inl e => raise e
  end.

Definition lift_outcome {A} (o : outcome A) : M A := fun h => Run o h [].

(** *** Dictionary objects

    A location that holds no dictionary stands for an argument that is
    not a [dict]: method calls on it raise. *)

(** [d.get(k, dflt)] *)
Definition dict_get (d : loc) (k : string) (dflt : pyval) : M pyval :=
  fun h =>
    match h !! d with
    | Some m => Run (Return (default dflt (m !! k))) h []
    | None => Run (Raise AttributeError) h []
    end.

(** [d[k]] *)
Definition dict_getitem (d : loc) (k : string) : M pyval := fun h =>
  match h !! d with
  | Some m =>
      match m !! k with
      | Some v => Run (Return v) h []
      | None => Run (Raise (KeyError k)) h []
      end
  | None => Run (Raise TypeError) h []
  end.

(** [k in d] *)
Definition dict_contains (d : loc) (k : string) : M bool := fun h =>
  match h !! d with
  | Some m => Run (Return (bool_decide (is_Some (m !! k)))) h []
  | None => Run (Raise TypeError) h []
  end.

(** [d[k] = v] *)
Definition dict_setitem (d : loc) (k : string) (v : pyval) : M unit :=
  fun h =>
    match h !! d with
    | Some m => Run (Return tt) (<[d := <[k := v]> m]> h) []
    | None => Run (Raise TypeError) h []
    end.

(** [copy.deepcopy(d)]: a new dictionary object with the same entries;
    the entries are immutable values, so nothing is shared with [d]. *)
Definition deepcopy (d : loc) : M loc := fun h =>
  match h !! d with
  | Some m => Run (Return (length h)) (h ++ [m]) []
  | None => Run (Raise TypeError) h []
  end.

(** *** Logging, printing and calls *)

Definition log_info (fmt : string) (args : list pyval) : M unit :=
  emit (Log INFO fmt args).

Definition log_error (fmt : string) (args : list pyval) : M unit :=
  emit (Log ERROR fmt args).

Definition py_print (v : pyval) : M unit := emit (Print v).

Definition subscript (v : pyval) (ks : list string) : M pyval :=
  lift (py_path v ks).

End Monad.

Arguments event DF : clear implicits.
Arguments run DF A : clear implicits.
Arguments M DF A : clear implicits.
Arguments Run {DF A} out hp evs.
Arguments out {DF A} r.
Arguments hp {DF A} r.
Arguments evs {DF A} r.

#[export] Instance M_ret {DF} : MRet (M DF) := @ret DF.
#[export] Instance M_bind {DF} : MBind (M DF) := fun A B k m => bind m k.

(** [wp m h Q]: the run of [m] from heap [h] satisfies [Q]. *)
Definition wp {DF A} (m : M DF A) (h : heap) (Q : run DF A -> Prop) : Prop :=
  Q (m h).

(** Programs, runs and traces over the tables of the collaborators. *)
Abbreviation prog A := (M DataFrame A).
Abbreviation result A := (run DataFrame A).
Abbreviation trace := (list (event DataFrame)).

Section Pipeline.
Context `{C : Collaborators}.

Definition call_redis_get (a : redis_get_args) : prog pyval :=
  emit (CallRedisGet a);; lift_outcome (get_data_from_redis_key a).

Definition call_read_json (json : pyval) : prog DataFrame :=
  emit (CallReadJson json);; lift_outcome (read_json json).

Definition call_scrub (a : scrub_args DataFrame)
    : prog (option DataFrame) :=
  emit (CallScrub a);; lift_outcome (extract_scrub_dataset a).

Definition call_perform_extract (df_type : Z) (df_str : string) (req : loc)
    (scrub_mode : string) : prog (pyval * option DataFrame) := fun h =>
  match h !! req with
  | Some m =>
      let '(o, m') := perform_extract df_type df_str m scrub_mode in
      Run o (<[req := m']> h)
          [CallPerformExtract df_type df_str req m scrub_mode]
  | None => Run (Raise AttributeError) h []
  end.

(** ** The four entry points

    Each definition follows its function statement by statement.  A
    [log.info(fmt.format(args))] is the event [Log INFO fmt args].  The
    keyword [scrub_mode] is passed by the caller; its default
    ['sort-by-date'] is the caller's to supply. *)

(** [extract_pricing_dataset]: [req] is a deep copy; the test for
    [redis_key] reads [work_dict], the test for [pricing] reads [req]. *)
Definition extract_pricing_dataset (work_dict : loc) (scrub_mode : string)
    : prog (pyval * option DataFrame) :=
  lbl ← dict_get work_dict "label" (VStr "extract");
  let label := lbl in
  let df_type := DATAFEED_PRICING_YAHOO in
  let df_str := get_datafeed_str_yahoo df_type in
  req ← deepcopy work_dict;
  has_key ← dict_contains work_dict "redis_key";
  (if negb has_key then
     has_alias ← dict_contains req "pricing";
     if (has_alias : bool) then
       v ← dict_getitem req "pricing";
       dict_setitem req "redis_key" v;;
       v' ← dict_getitem req "pricing";
       dict_setitem req "s3_key" v'
     else mret tt
   else mret tt);;
  log_info "{} - {} - start" [label; VStr df_str];;
  call_perform_extract df_type df_str req scrub_mode.

(** [extract_yahoo_news_dataset]: as above, except that the test for
    [news] reads [work_dict]. *)
Definition extract_yahoo_news_dataset (work_dict : loc) (scrub_mode : string)
    : prog (pyval * option DataFrame) :=
  lbl ← dict_get work_dict "label" (VStr "extract");
  let label := lbl in
  let df_type := DATAFEED_NEWS_YAHOO in
  let df_str := get_datafeed_str_yahoo df_type in
  req ← deepcopy work_dict;
  has_key ← dict_contains work_dict "redis_key";
  (if negb has_key then
     has_alias ← dict_contains work_dict "news";
     if (has_alias : bool) then
       v ← dict_getitem req "news";
       dict_setitem req "redis_key" v;;
       v' ← dict_getitem req "news";
       dict_setitem req "s3_key" v'
     else mret tt
   else mret tt);;
  log_info "{} - {} - start" [label; VStr df_str];;
  call_perform_extract df_type df_str req scrub_mode.

(** [extract_option_calls_dataset].  The three subscripts
    [work_dict['redis_host'],] end in a comma, so each local is a
    one-element tuple.  The [try] block yields the value of [calls_df]
    at its end: the decoded table, or the initial [None] when the
    status is not [SUCCESS].  The local [status] starts as [NOT_RUN]
    and takes the store's status inside the block, but both [return]
    statements read it right after an assignment: [ERR] in the handler,
    [SUCCESS] after the scrub call. *)
Definition extract_option_calls_dataset (work_dict : loc)
    (scrub_mode : string) : prog (pyval * option DataFrame) :=
  lbl ← dict_get work_dict "label" (VStr "extract");
  let label := py_str lbl +:+ "-calls" in
  ds_id ← dict_get work_dict "ticker" VNone;
  let df_type := DATAFEED_OPTIONS_YAHOO in
  let df_str := get_datafeed_str_yahoo df_type in
  alias_r ← dict_get work_dict "options" (VStr "missing-redis-key");
  redis_key ← dict_get work_dict "redis_key" alias_r;
  alias_s ← dict_get work_dict "options" (VStr "missing-s3-key");
  s3_key ← dict_get work_dict "s3_key" alias_s;
  host ← dict_getitem work_dict "redis_host";
  let redis_host := VTuple [host] in
  port ← dict_getitem work_dict "redis_port";
  let redis_port := VTuple [port] in
  db ← dict_getitem work_dict "redis_db";
  let redis_db := VTuple [db] in
  log_info "{} - {} - start - redis_key={} s3_key={}"
    [VStr label; VStr df_str; redis_key; s3_key];;
  attempt ← try_except (
    password ← dict_get work_dict "password" VNone;
    redis_rec ← call_redis_get
      (RedisGetArgs label redis_host redis_port redis_db password redis_key);
    status ← subscript redis_rec ["status"];
    log_info "{} - {} redis get data key={} status={}"
      [VStr label; VStr df_str; redis_key; VStr (get_status status)];;
    if py_eq_int status SUCCESS then
      data ← subscript redis_rec ["rec"; "data"];
      py_print data;;
      exp_date_str ← subscript redis_rec ["rec"; "data"; "exp_date"];
      calls_json ← subscript redis_rec ["rec"; "data"; "calls"];
      log_info "{} - {} redis convert calls to df" [VStr label; VStr df_str];;
      calls_df ← call_read_json calls_json;
      log_info "{} - {} redis_key={} calls={} exp_date={}"
        [VStr label; VStr df_str; redis_key; VInt (df_index_len calls_df);
         exp_date_str];;
      mret (Some calls_df)
    else
      log_info
        "{} - {} did not find valid redis option calls in redis_key={} status={}"
        [VStr label; VStr df_str; redis_key; VStr (get_status status)];;
      mret None);
  match attempt with
  | inl e =>
      log_error
        "{} - {} - ds_id={} failed getting option calls from redis={}:{}@{} key={} ex={}"
        [VStr label; VStr df_str; ds_id; redis_host; redis_port; redis_db;
         redis_key; VExn e];;
      mret (VInt ERR, None)
  | inr calls_df =>
      log_info "{} - {} ds_id={} extract scrub={}"
        [VStr label; VStr df_str; ds_id; VStr scrub_mode];;
      scrubbed_df ← call_scrub
        (ScrubArgs label scrub_mode df_type "df={} date_str={}" ds_id calls_df);
      mret (VInt SUCCESS, scrubbed_df)
  end.

(** [extract_option_puts_dataset]: the same statements for the [puts]
    field. *)
Definition extract_option_puts_dataset (work_dict : loc)
    (scrub_mode : string) : prog (pyval * option DataFrame) :=
  lbl ← dict_get work_dict "label" (VStr "extract");
  let label := py_str lbl +:+ "-puts" in
  ds_id ← dict_get work_dict "ticker" VNone;
  let df_type := DATAFEED_OPTIONS_YAHOO in
  let df_str := get_datafeed_str_yahoo df_type in
  alias_r ← dict_get work_dict "options" (VStr "missing-redis-key");
  redis_key ← dict_get work_dict "redis_key" alias_r;
  alias_s ← dict_get work_dict "options" (VStr "missing-s3-key");
  s3_key ← dict_get work_dict "s3_key" alias_s;
  host ← dict_getitem work_dict "redis_host";
  let redis_host := VTuple [host] in
  port ← dict_getitem work_dict "redis_port";
  let redis_port := VTuple [port] in
  db ← dict_getitem work_dict "redis_db";
  let redis_db := VTuple [db] in
  log_info "{} - {} - start - redis_key={} s3_key={}"
    [VStr label; VStr df_str; redis_key; s3_key];;
  attempt ← try_except (
    password ← dict_get work_dict "password" VNone;
    redis_rec ← call_redis_get
      (RedisGetArgs label redis_host redis_port redis_db password redis_key);
    status ← subscript redis_rec ["status"];
    log_info "{} - {} redis get data key={} status={}"
      [VStr label; VStr df_str; redis_key; VStr (get_status status)];;
    if py_eq_int status SUCCESS then
      data ← subscript redis_rec ["rec"; "data"];
      py_print data;;
      exp_date_str ← subscript redis_rec ["rec"; "data"; "exp_date"];
      puts_json ← subscript redis_rec ["rec"; "data"; "puts"];
      log_info "{} - {} redis convert puts to df" [VStr label; VStr df_str];;
      puts_df ← call_read_json puts_json;
      log_info "{} - {} redis_key={} puts={} exp_date={}"
        [VStr label; VStr df_str; redis_key; VInt (df_index_len puts_df);
         exp_date_str];;
      mret (Some puts_df)
    else
      log_info
        "{} - {} did not find valid redis option puts in redis_key={} status={}"
        [VStr label; VStr df_str; redis_key; VStr (get_status status)];;
      mret None);
  match attempt with
  | inl e =>
      log_error
        "{} - {} - ds_id={} failed getting option puts from redis={}:{}@{} key={} ex={}"
        [VStr label; VStr df_str; ds_id; redis_host; redis_port; redis_db;
         redis_key; VExn e];;
      mret (VInt ERR, None)
  | inr puts_df =>
      log_info "{} - {} ds_id={} extract scrub={}"
        [VStr label; VStr df_str; ds_id; VStr scrub_mode];;
      scrubbed_df ← call_scrub
        (ScrubArgs label scrub_mode df_type "df={} date_str={}" ds_id puts_df);
      mret (VInt SUCCESS, scrubbed_df)
  end.

End Pipeline.

(** ** Vocabulary for the statements *)

(** The two sides of an option chain; [extract_option_dataset] selects
    the entry point of a side, so that one statement covers both. *)
Inductive option_side : Type := Calls | Puts.

Definition side_field (s : option_side) : string :=
  match s with
  | Calls => "calls"
  | Puts => "puts"
  end.

Definition extract_option_dataset `{C : Collaborators} (s : option_side)
    : loc -> string -> prog (pyval * option DataFrame) :=
  match s with
  | Calls => extract_option_calls_dataset
  | Puts => extract_option_puts_dataset
  end.

(** The two datasets that are delegated to [perform_extract], with
    their alias field. *)
Inductive delegated_feed : Type := Pricing | News.

Definition alias_field (f : delegated_feed) : string :=
  match f with
  | Pricing => "pricing"
  | News => "news"
  end.

Definition delegated_df_type `{C : Collaborators} (f : delegated_feed) : Z :=
  match f with
  | Pricing => DATAFEED_PRICING_YAHOO
  | News => DATAFEED_NEWS_YAHOO
  end.

Definition extract_delegated_dataset `{C : Collaborators} (f : delegated_feed)
    : loc -> string -> prog (pyval * option DataFrame) :=
  match f with
  | Pricing => extract_pricing_dataset
  | News => extract_yahoo_news_dataset
  end.

(** Key resolution as the specification words it: the explicit key if
    present, else the [options] alias, else the sentinel. *)
Definition resolve_key (field sentinel : string) (d : gmap string pyval)
    : pyval :=
  match d !! field with
  | Some v => v
  | None =>
      match d !! "options" with
      | Some v => v
      | None => VStr sentinel
      end
  end.

(** A store record that is well formed for a side: [rec.data] is a
    record with an [exp_date] and the side's serialized table, and the
    table decodes. *)
Definition well_formed_record `{C : Collaborators} (s : option_side)
    (top : gmap string pyval) : Prop :=
  exists (r dat : gmap string pyval) (exp_date json : pyval) (df : DataFrame),
    top !! "rec" = Some (VDict r) /\
    r !! "data" = Some (VDict dat) /\
    dat !! "exp_date" = Some exp_date /\
    dat !! side_field s = Some json /\
    read_json json = Return df.

(** [scrub_called evs]: some event of [evs] is a call of the scrub
    routine; likewise for the decoder. *)
Definition scrub_called `{C : Collaborators} (es : trace) : Prop :=
  exists a, In (CallScrub a) es.

Definition decode_called `{C : Collaborators} (es : trace) : Prop :=
  exists json, In (CallReadJson json) es.

(** Alias resolution as the specification words it: with no explicit
    [redis_key], the alias field, if present, supplies both keys. *)
Definition normalize_request (alias : string) (d : gmap string pyval)
    : gmap string pyval :=
  match d !! "redis_key" with
  | Some _ => d
  | None =>
      match d !! alias with
      | Some v => <["s3_key" := v]> (<["redis_key" := v]> d)
      | None => d
      end
  end.

(** The ways the fetch and decode steps of a side fail: the store call
    raises, or it reports [SUCCESS] with a record that is not well
    formed. *)
Inductive fetch_failure `{C : Collaborators} (s : option_side)
    : outcome pyval -> Prop :=
| fetch_raised (e : exn) : fetch_failure s (Raise e)
| record_malformed (top : gmap string pyval) :
    top !! "status" = Some (VInt SUCCESS) ->
    ~ well_formed_record s top ->
    fetch_failure s (Return (VDict top)).

(** The collaborator calls of a trace, by kind and in order; log lines
    and prints are left out. *)
Inductive call_kind : Type := KFetch | KDecode | KScrub | KDelegate.

Definition call_kind_of {DF} (ev : event DF) : option call_kind :=
  match ev with
  | Log _ _ _ | Print _ => None
  | CallRedisGet _ => Some KFetch
  | CallReadJson _ => Some KDecode
  | CallScrub _ => Some KScrub
  | CallPerformExtract _ _ _ _ _ => Some KDelegate
  end.

Fixpoint call_kinds {DF} (es : list (event DF)) : list call_kind :=
  match es with
  | [] => []
  | ev :: es' =>
      match call_kind_of ev with
      | Some k => k :: call_kinds es'
      | None => call_kinds es'
      end
  end.

(** The label an option entry point passes on: the request's [label],
    ['extract'] by default, with the side as suffix. *)
Definition option_label `{C : Collaborators} (s : option_side)
    (d : gmap string pyval) : string :=
  py_str (default (VStr "extract") (d !! "label")) +:+ "-" +:+ side_field s.

(** The keyword arguments of the store call of an option entry point,
    for a request [d] whose connection parameters are [hv], [pv] and
    [dv]: the three parameters as the one-element tuples the code
    builds, the password or [None], and the resolved key. *)
Definition option_fetch_args `{C : Collaborators} (s : option_side)
    (d : gmap string pyval) (hv pv dv : pyval) : redis_get_args :=
  RedisGetArgs (option_label s d) (VTuple [hv]) (VTuple [pv]) (VTuple [dv])
    (default VNone (d !! "password"))
    (resolve_key "redis_key" "missing-redis-key" d).

(** The keyword arguments of the scrub call of an option entry point,
    for the table [df] the [try] block left in [calls_df]/[puts_df]. *)
Definition option_scrub_args `{C : Collaborators} (s : option_side)
    (d : gmap string pyval) (scrub_mode : string) (df : option DataFrame)
    : scrub_args DataFrame :=
  ScrubArgs (option_label s d) scrub_mode DATAFEED_OPTIONS_YAHOO
    "df={} date_str={}" (default VNone (d !! "ticker")) df.

(** [try_block_table s top df]: on the store record [top] the [try]
    block of side [s] ends without an exception and leaves [df] in
    [calls_df]/[puts_df].  Either the status is not [SUCCESS] and the
    table is still [None], or the status is [SUCCESS], [rec.data] holds
    an [exp_date] and the side's serialized table, and the table
    decodes. *)
Inductive try_block_table `{C : Collaborators} (s : option_side)
    (top : gmap string pyval) : option DataFrame -> Prop :=
| table_not_decoded (st : pyval) :
    top !! "status" = Some st ->
    py_eq_int st SUCCESS = false ->
    try_block_table s top None
| table_decoded (r dat : gmap string pyval) (exp_date json : pyval)
    (df : DataFrame) :
    top !! "status" = Some (VInt SUCCESS) ->
    top !! "rec" = Some (VDict r) ->
    r !! "data" = Some (VDict dat) ->
    dat !! "exp_date" = Some exp_date ->
    dat !! side_field s = Some json ->
    read_json json = Return df ->
    try_block_table s top (Some df).

(** ** A sample world

    A small store, decoder and scrub routine on which the statements
    are exercised.  The status codes are sample values of the constants
    the module imports. *)
Module Sample.

Definition dq : string := String (Ascii.ascii_of_nat 34) EmptyString.

(** The serialized one-row table [[{"strike":100}]]. *)
Definition one_row_json : string :=
  "[{" +:+ dq +:+ "strike" +:+ dq +:+ ":100}]".

(** A table: rows of column/value pairs. *)
Abbreviation table := (list (list (string * pyval))).

Definition sample_read_json (json : pyval) : outcome table :=
  match json with
  | VStr s =>
      if String.eqb s one_row_json then Return [[("strike", VInt 100)]]
      else if String.eqb s "[]" then Return []
      else Raise (ValueError "Expected object or value")
  | _ => Raise (ValueError "Invalid file path or buffer object type")
  end.

Definition option_chain : gmap string pyval :=
  {[ "exp_date" := VStr "2024-01-19";
     "calls" := VStr one_row_json;
     "puts" := VStr "[]" ]}.

Definition found (data : gmap string pyval) : pyval :=
  VDict {[ "status" := VInt 0;
           "rec" := VDict {[ "data" := VDict data ]} ]}.

(** The store: one complete record, one record without tables, one key
    whose lookup fails at the connection, and misses elsewhere. *)
Definition sample_redis_get (a : redis_get_args) : outcome pyval :=
  match rg_key a with
  | VStr k =>
      if String.eqb k "opt:AAPL:2024-01-19" then Return (found option_chain)
      else if String.eqb k "opt:MSFT:2024-01-19" then
        Return (found {[ "exp_date" := VStr "2024-01-19" ]})
      else if String.eqb k "opt:down" then
        Raise (RaisedBy "redis" "connection refused")
      else Return (VDict {[ "status" := VInt 4 ]})
  | _ => Raise TypeError
  end.

Definition sample_scrub (a : scrub_args table) : outcome (option table) :=
  if String.eqb (sc_scrub_mode a) "sort-by-date" then Return (sc_df a)
  else Raise (RaisedBy "scrub" "unsupported scrub mode").

Definition sample_perform_extract (df_type : Z) (df_str : string)
    (req : gmap string pyval) (scrub_mode : string)
    : outcome (pyval * option table) * gmap string pyval :=
  (Return (VInt 4, None), <["scrub_mode" := VStr scrub_mode]> req).

Definition sample_py_str (v : pyval) : string :=
  match v with
  | VStr s => s
  | VNone => "None"
  | _ => "<object>"
  end.

Definition sample_get_status (v : pyval) : string :=
  if py_eq_int v 0 then "SUCCESS"
  else if py_eq_int v 2 then "ERR"
  else if py_eq_int v 4 then "NOT_RUN"
  else "unsupported status".

Definition world : Collaborators := {|
  DataFrame := table;
  SUCCESS := 0;
  ERR := 2;
  NOT_RUN := 4;
  DATAFEED_PRICING_YAHOO := 1100;
  DATAFEED_OPTIONS_YAHOO := 1101;
  DATAFEED_NEWS_YAHOO := 1102;
  get_status := sample_get_status;
  get_datafeed_str_yahoo := fun _ => "yahoo";
  py_str := sample_py_str;
  df_index_len := fun t => Z.of_nat (length t);
  get_data_from_redis_key := sample_redis_get;
  read_json := sample_read_json;
  extract_scrub_dataset := sample_scrub;
  perform_extract := sample_perform_extract
|}.

(** The request of the specification's scenario, under a given key. *)
Definition request (key : string) : gmap string pyval :=
  {[ "redis_key" := VStr key;
     "redis_host" := VStr "h";
     "redis_port" := VInt 6379;
     "redis_db" := VInt 0 ]}.

(** A request in the legacy form: no [redis_key], alias fields only. *)
Definition legacy_request : gmap string pyval :=
  {[ "ticker" := VStr "AAPL";
     "pricing" := VStr "AAPL_pricing";
     "news" := VStr "AAPL_news";
     "options" := VStr "opt:AAPL:2024-01-19";
     "redis_host" := VStr "h";
     "redis_port" := VInt 6379;
     "redis_db" := VInt 0 ]}.

(** The scenario's request without its [redis_port]. *)
Definition request_without_port : gmap string pyval :=
  {[ "redis_key" := VStr "opt:AAPL:2024-01-19";
     "redis_host" := VStr "h";
     "redis_db" := VInt 0 ]}.

(** What the option entry points pass to the store and to the scrub
    routine on the requests above. *)
Definition fetch_args (s : option_side) (key : string) : redis_get_args :=
  RedisGetArgs ("extract-" +:+ side_field s)
    (VTuple [VStr "h"]) (VTuple [VInt 6379]) (VTuple [VInt 0])
    VNone (VStr key).

Definition scrub_input (s : option_side) (scrub_mode : string)
    (ds_id : pyval) (df : option table) : scrub_args table :=
  ScrubArgs ("extract-" +:+ side_field s) scrub_mode 1101
    "df={} date_str={}" ds_id df.

(** A run of an option entry point in the sample world, on a heap that
    holds the request alone. *)
Definition run_option (s : option_side) (req : gmap string pyval)
    (scrub_mode : string) : run table (pyval * option table) :=
  @extract_option_dataset world s 0%nat scrub_mode [req].

End Sample.

(** More sample data: a second world, in which the store client
    answers [None] to every request, and the request the pricing entry
    point derives from the legacy request. *)
Module SampleBare.

Definition bare_redis_get (a : redis_get_args) : outcome pyval :=
  Return VNone.

Definition world : Collaborators := {|
  DataFrame := Sample.table;
  SUCCESS := 0;
  ERR := 2;
  NOT_RUN := 4;
  DATAFEED_PRICING_YAHOO := 1100;
  DATAFEED_OPTIONS_YAHOO := 1101;
  DATAFEED_NEWS_YAHOO := 1102;
  get_status := Sample.sample_get_status;
  get_datafeed_str_yahoo := fun _ => "yahoo";
  py_str := Sample.sample_py_str;
  df_index_len := fun t => Z.of_nat (length t);
  get_data_from_redis_key := bare_redis_get;
  read_json := Sample.sample_read_json;
  extract_scrub_dataset := Sample.sample_scrub;
  perform_extract := Sample.sample_perform_extract
|}.

(** The legacy request with both keys set from its [pricing] alias. *)
Definition legacy_pricing_request : gmap string pyval :=
  <["s3_key" := VStr "AAPL_pricing"]>
    (<["redis_key" := VStr "AAPL_pricing"]> Sample.legacy_request).

End SampleBare.

(** * Reasoning rules

    One rule per operation, in the style of a weakest-precondition
    calculus: each rule reduces a goal about [bind op k] to goals about
    the continuation, one per way [op] can end. *)
Section Rules.
Context `{C : Collaborators}.
Implicit Types (h : heap) (d m : gmap string pyval) (k : string) (v : pyval).

Lemma prepend_nil {A} (r : result A) : prepend [] r = r.
Proof. by destruct r. Qed.

Lemma wp_ret {A} (a : A) h (Q : result A -> Prop) :
  Q (Run (Return a) h []) -> wp (ret a) h Q.
Proof. done. Qed.

Lemma wp_bind_ret {A B} (a : A) (f : A -> prog B) h (Q : result B -> Prop) :
  wp (f a) h Q -> wp (bind (ret a) f) h Q.
Proof. unfold wp, bind, ret. by rewrite prepend_nil. Qed.

Lemma wp_bind_assoc {A B D} (m : prog A) (g : A -> prog B) (f : B -> prog D) h
    (Q : result D -> Prop) :
  wp (bind m (fun a => bind (g a) f)) h Q -> wp (bind (bind m g) f) h Q.
Proof.
  unfold wp, bind. destruct (m h) as [[a|e] h1 es1]; [|done].
  destruct (g a h1) as [[b|e] h2 es2]; cbn; [|done].
  destruct (f b h2) as [o h3 es3]; cbn. by rewrite app_assoc.
Qed.

Lemma wp_bind_emit {B} ev (f : unit -> prog B) h (Q : result B -> Prop) :
  wp (f tt) h (fun r => Q (prepend [ev] r)) -> wp (bind (emit ev) f) h Q.
Proof. done. Qed.

Lemma wp_bind_dict_get {B} (wd : loc) k v (f : pyval -> prog B) h d
    (Q : result B -> Prop) :
  h !! wd = Some d ->
  wp (f (default v (d !! k))) h Q -> wp (bind (dict_get wd k v) f) h Q.
Proof. unfold wp, bind, dict_get. intros ->. by rewrite prepend_nil. Qed.

Lemma wp_bind_dict_get_None {B} (wd : loc) k v (f : pyval -> prog B) h
    (Q : result B -> Prop) :
  h !! wd = None ->
  Q (Run (Raise AttributeError) h []) -> wp (bind (dict_get wd k v) f) h Q.
Proof. unfold wp, bind, dict_get. by intros ->. Qed.

Lemma wp_bind_dict_getitem {B} (wd : loc) k (f : pyval -> prog B) h d
    (Q : result B -> Prop) :
  h !! wd = Some d ->
  (forall v, d !! k = Some v -> wp (f v) h Q) ->
  (d !! k = None -> Q (Run (Raise (KeyError k)) h [])) ->
  wp (bind (dict_getitem wd k) f) h Q.
Proof.
  unfold wp, bind, dict_getitem. intros -> Hs Hn.
  destruct (d !! k) as [x|]; [|by apply Hn].
  rewrite prepend_nil. by apply Hs.
Qed.

Lemma wp_bind_dict_contains {B} (wd : loc) k (f : bool -> prog B) h d
    (Q : result B -> Prop) :
  h !! wd = Some d ->
  wp (f (bool_decide (is_Some (d !! k)))) h Q ->
  wp (bind (dict_contains wd k) f) h Q.
Proof. unfold wp, bind, dict_contains. intros ->. by rewrite prepend_nil. Qed.

Lemma wp_bind_deepcopy {B} (wd : loc) (f : loc -> prog B) h d
    (Q : result B -> Prop) :
  h !! wd = Some d ->
  wp (f (length h)) (h ++ [d]) Q -> wp (bind (deepcopy wd) f) h Q.
Proof. unfold wp, bind, deepcopy. intros ->. by rewrite prepend_nil. Qed.

(** Heaps of the shape [h ++ [m]]: the caller's objects [h] and the
    copy [m] on top, at location [length h]. *)
Lemma heap_lookup_old h m (l : loc) d :
  h !! l = Some d -> (h ++ [m]) !! l = Some d.
Proof.
  intros Hl. rewrite lookup_app_l; [done|]. by eapply lookup_lt_Some.
Qed.

Lemma heap_lookup_new h m : (h ++ [m]) !! length h = Some m.
Proof. by apply list_lookup_middle. Qed.

Lemma heap_insert_new h m m' : <[length h := m']> (h ++ [m]) = h ++ [m'].
Proof.
  rewrite insert_app_r_alt by lia. by rewrite Nat.sub_diag.
Qed.

Lemma wp_bind_dict_setitem_new {B} k v (f : unit -> prog B) h m
    (Q : result B -> Prop) :
  wp (f tt) (h ++ [<[k := v]> m]) Q ->
  wp (bind (dict_setitem (length h) k v) f) (h ++ [m]) Q.
Proof.
  unfold wp, bind, dict_setitem.
  rewrite heap_lookup_new, heap_insert_new. by rewrite prepend_nil.
Qed.

Lemma wp_call_perform_extract_new df_type df_str sm h m
    (Q : result (pyval * option DataFrame) -> Prop) :
  Q (Run (perform_extract df_type df_str m sm).1
         (h ++ [(perform_extract df_type df_str m sm).2])
         [CallPerformExtract df_type df_str (length h) m sm]) ->
  wp (call_perform_extract df_type df_str (length h) sm) (h ++ [m]) Q.
Proof.
  unfold wp, call_perform_extract. rewrite heap_lookup_new.
  destruct (perform_extract df_type df_str m sm) as [o m'].
  by rewrite heap_insert_new.
Qed.

Lemma wp_bind_subscript {B} v ks (f : pyval -> prog B) h (Q : result B -> Prop) :
  (forall x, py_path v ks = inr x -> wp (f x) h Q) ->
  (forall e, py_path v ks = inl e -> Q (Run (Raise e) h [])) ->
  wp (bind (subscript v ks) f) h Q.
Proof.
  unfold wp, bind, subscript, lift. intros Hs Hn.
  destruct (py_path v ks) as [e|x]; [by apply Hn|].
  cbn. rewrite prepend_nil. by apply Hs.
Qed.

(** A collaborator call: the event, then the collaborator's outcome. *)
Lemma wp_bind_call {A B} (ev : event DataFrame) (o : outcome A) (f : A -> prog B) h
    (Q : result B -> Prop) :
  (forall a, o = Return a -> wp (f a) h (fun r => Q (prepend [ev] r))) ->
  (forall e, o = Raise e -> Q (Run (Raise e) h [ev])) ->
  wp (bind (bind (emit ev) (fun _ => lift_outcome o)) f) h Q.
Proof.
  unfold wp, bind, emit, lift_outcome. intros Hs Hn.
  destruct o as [a|e]; cbn; [|by apply Hn].
  specialize (Hs a eq_refl). by destruct (f a h).
Qed.

Lemma wp_bind_try {A B} (m : prog A) (f : exn + A -> prog B) h
    (Q : result B -> Prop) :
  wp m h (fun r =>
    match r with
    | Run (Return a) h1 es => wp (f (inr a)) h1 (fun r' => Q (prepend es r'))
    | Run (Raise e) h1 es => wp (f (inl e)) h1 (fun r' => Q (prepend es r'))
    end) ->
  wp (bind (try_except m) f) h Q.
Proof. unfold wp, bind, try_except. by destruct (m h) as [[a|e] h1 es]. Qed.

(** Subscripts of a store record, by its entries. *)
Lemma py_path_status top ks :
  py_path (VDict top) ("status" :: ks) =
    match top !! "status" with
    | Some x => py_path x ks
    | None => inl (KeyError "status")
    end.
Proof. cbn [py_path]. unfold py_getitem. by destruct (top !! "status"). Qed.

Lemma py_path_rec_data top k :
  py_path (VDict top) ["rec"; "data"; k] =
    match top !! "rec" with
    | Some (VDict r) =>
        match r !! "data" with
        | Some (VDict dat) =>
            match dat !! k with
            | Some x => inr x
            | None => inl (KeyError k)
            end
        | Some _ => inl TypeError
        | None => inl (KeyError "data")
        end
    | Some _ => inl TypeError
    | None => inl (KeyError "rec")
    end.
Proof.
  cbn [py_path]. unfold py_getitem.
  destruct (top !! "rec") as [[| | | |r|]|]; try done.
  destruct (r !! "data") as [[| | | |dat|]|]; try done.
  by destruct (dat !! k).
Qed.

Lemma resolve_key_default field sentinel d :
  default (default (VStr sentinel) (d !! "options")) (d !! field)
  = resolve_key field sentinel d.
Proof.
  unfold resolve_key. destruct (d !! field); [done|].
  by destruct (d !! "options").
Qed.

End Rules.

(** Unfold an entry point down to [bind] and the primitive operations. *)
Ltac wp_begin :=
  lazy beta zeta delta
    [extract_option_dataset extract_option_calls_dataset
     extract_option_puts_dataset extract_delegated_dataset
     extract_pricing_dataset extract_yahoo_news_dataset
     mbind mret M_bind M_ret
     log_info log_error py_print call_redis_get call_read_json call_scrub].

(** Side conditions of the shape [heap !! l = Some _]. *)
Ltac heap_lookup :=
  first
    [ eassumption
    | apply heap_lookup_new
    | apply heap_lookup_old; eassumption ].

(** One step of symbolic execution on a goal [wp m h Q]. *)
Ltac wp_step :=
  lazy beta iota delta [prepend app];
  lazymatch goal with
  | |- wp (bind (dict_get _ _ _) _) _ _ =>
      eapply wp_bind_dict_get; [heap_lookup|]
  | |- wp (bind (dict_getitem _ _) _) _ _ =>
      eapply wp_bind_dict_getitem;
        [heap_lookup | intros ? ?; try congruence | intros ?; try congruence]
  | |- wp (bind (dict_contains _ _) _) _ _ =>
      eapply wp_bind_dict_contains; [heap_lookup|]
  | |- wp (bind (deepcopy _) _) _ _ =>
      eapply wp_bind_deepcopy; [heap_lookup|]
  | |- wp (bind (dict_setitem _ _ _) _) _ _ =>
      apply wp_bind_dict_setitem_new
  | |- wp (bind (emit _) _) _ _ => apply wp_bind_emit
  | |- wp (bind (subscript _ _) _) _ _ =>
      apply wp_bind_subscript; [intros ? ?|intros ? ?]
  | |- wp (bind (bind (emit _) _) _) _ _ =>
      apply wp_bind_call; [intros ? ?|intros ? ?]
  | |- wp (bind (try_except _) _) _ _ => apply wp_bind_try
  | |- wp (bind (ret _) _) _ _ => apply wp_bind_ret
  | |- wp (bind (if ?b then _ else _) _) _ _ => destruct b eqn:?
  | |- wp (bind (bind _ _) _) _ _ => apply wp_bind_assoc
  | |- wp (call_perform_extract _ _ _ _) _ _ =>
      apply wp_call_perform_extract_new
  | |- wp (ret _) _ _ => apply wp_ret
  | |- wp (if ?b then _ else _) _ _ => destruct b eqn:?
  end.

Ltac wp_run :=
  repeat wp_step; lazy beta iota delta [prepend app evs out hp].

(** State a goal about the run of an entry point as a [wp] goal. *)
Ltac wp_of r :=
  pattern r;
  lazymatch goal with
  | |- ?Q (?m ?h) => change (wp m h Q)
  end.

(** Membership of an event in an explicit trace. *)
Ltac which_event H :=
  cbn [In] in H;
  repeat (destruct H as [H|H]; [try discriminate H|]); [..|destruct H].

(** Exhibit an event of an explicit trace. *)
Ltac find_event :=
  cbn [In]; repeat (first [left; reflexivity | right]).

(** * The options path *)
Section OptionsPath.
Context `{C : Collaborators}.
Implicit Types (s : option_side) (h : heap) (d top : gmap string pyval).
Implicit Types (wd : loc) (sm k : string).

(** The option entry points perform no write: the heap after a run is
    the heap before it. *)
Lemma option_extract_heap s h wd sm :
  hp (extract_option_dataset s wd sm h) = h.
Proof.
  wp_of (extract_option_dataset s wd sm h).
  destruct (h !! wd) as [d|] eqn:Hwd.
  - destruct s; wp_begin; wp_run; reflexivity.
  - destruct s; wp_begin; by eapply wp_bind_dict_get_None.
Qed.

(** The first two events of a run whose request carries the three
    connection parameters: the start line and the store call, with the
    arguments the code builds. *)
Lemma option_fetch_call s h wd d sm hv pv dv :
  h !! wd = Some d ->
  d !! "redis_host" = Some hv ->
  d !! "redis_port" = Some pv ->
  d !! "redis_db" = Some dv ->
  let label :=
    py_str (default (VStr "extract") (d !! "label")) +:+ "-" +:+ side_field s in
  let df_str := get_datafeed_str_yahoo DATAFEED_OPTIONS_YAHOO in
  let redis_key := resolve_key "redis_key" "missing-redis-key" d in
  let s3_key := resolve_key "s3_key" "missing-s3-key" d in
  exists rest,
    evs (extract_option_dataset s wd sm h) =
      Log INFO "{} - {} - start - redis_key={} s3_key={}"
        [VStr label; VStr df_str; redis_key; s3_key]
      :: CallRedisGet
           (RedisGetArgs label (VTuple [hv]) (VTuple [pv]) (VTuple [dv])
              (default VNone (d !! "password")) redis_key)
      :: rest.
Proof.
  intros Hwd Hh Hp Hd label df_str redis_key s3_key.
  subst label df_str redis_key s3_key.
  rewrite <- !resolve_key_default.
  wp_of (extract_option_dataset s wd sm h).
  destruct s; wp_begin; wp_run.
  all: repeat match goal with
         | Ha : ?m !! ?k = Some _, Hb : ?m !! ?k = Some _ |- _ =>
             rewrite Ha in Hb; injection Hb as <-
         end.
  all: eexists; reflexivity.
Qed.

(** C8: a request that lacks [redis_host], [redis_port] or [redis_db]
    makes both option entry points raise the [KeyError] of a missing
    parameter to the caller: nothing is logged, the store is not
    called, and no status is returned. *)
Theorem missing_connection_parameter_raises s h wd d sm :
  h !! wd = Some d ->
  d !! "redis_host" = None \/ d !! "redis_port" = None \/
    d !! "redis_db" = None ->
  exists k,
    In k ["redis_host"; "redis_port"; "redis_db"] /\
    d !! k = None /\
    extract_option_dataset s wd sm h = Run (Raise (KeyError k)) h [].
Proof.
  intros Hwd Hmiss.
  wp_of (extract_option_dataset s wd sm h).
  destruct s; wp_begin.
  all: do 9 (try wp_step).
  all: try (exfalso; destruct Hmiss as [?|[?|?]]; congruence).
  all: lazy beta.
  all: lazymatch goal with
       | |- exists k, _ /\ _ /\ Run (Raise (KeyError ?k0)) _ _ = _ =>
           exists k0
       end.
  all: split; [cbn; tauto | split; [assumption | reflexivity]].
Qed.

(** C10: key resolution on the options path does not raise.  With the
    connection parameters present, the run reaches the store call, and
    the key it fetches is the request's [redis_key] if present, else
    its [options] field if present, else ["missing-redis-key"]; the
    [s3_key] reported on the start line is resolved the same way with
    ["missing-s3-key"]. *)
Theorem option_key_resolution s h wd d sm hv pv dv :
  h !! wd = Some d ->
  d !! "redis_host" = Some hv ->
  d !! "redis_port" = Some pv ->
  d !! "redis_db" = Some dv ->
  exists label df_str a rest,
    evs (extract_option_dataset s wd sm h) =
      Log INFO "{} - {} - start - redis_key={} s3_key={}"
        [label; df_str;
         resolve_key "redis_key" "missing-redis-key" d;
         resolve_key "s3_key" "missing-s3-key" d]
      :: CallRedisGet a :: rest /\
    rg_key a = resolve_key "redis_key" "missing-redis-key" d.
Proof.
  intros Hwd Hh Hp Hd.
  destruct (option_fetch_call s h wd d sm hv pv dv Hwd Hh Hp Hd)
    as [rest Hevs].
  rewrite Hevs. by repeat eexists.
Qed.

(** A store call of a run that fails, or delivers a record that is not
    well formed, ends the run with status [ERR], no table and no scrub
    call. *)
Lemma fetch_failure_in_trace_gives_ERR s h wd sm a :
  In (CallRedisGet a) (evs (extract_option_dataset s wd sm h)) ->
  fetch_failure s (get_data_from_redis_key a) ->
  out (extract_option_dataset s wd sm h) = Return (VInt ERR, None) /\
  ~ scrub_called (evs (extract_option_dataset s wd sm h)).
Proof.
  wp_of (extract_option_dataset s wd sm h).
  destruct (h !! wd) as [d|] eqn:Hwd.
  2:{ destruct s; wp_begin; (eapply wp_bind_dict_get_None; [done|]);
      by intros []. }
  destruct s; wp_begin; wp_run.
  all: intros Hin Hfail; which_event Hin.
  all: injection Hin as <-.
  all: match goal with
       | Hg : get_data_from_redis_key _ = _ |- _ => rewrite Hg in Hfail
       end.
  all: try (split; [reflexivity|intros [sa Hsa]; which_event Hsa]).
  all: inversion Hfail as [|top Hst Hwf Htop]; subst; clear Hfail.
  all: exfalso.
  all: match goal with
       | Hp : py_path (VDict ?t) ["status"] = _, Hs : ?t !! "status" = _
         |- _ =>
           rewrite py_path_status, Hs in Hp; cbn [py_path] in Hp;
           try discriminate Hp; injection Hp as <-
       end.
  all: try match goal with
       | Hb : py_eq_int (VInt SUCCESS) SUCCESS = false |- _ =>
           cbn [py_eq_int] in Hb; rewrite bool_decide_eq_false in Hb;
           by destruct Hb
       end.
  all: apply Hwf; clear Hwf.
  all: repeat match goal with
       | Hp : py_path (VDict _) ["rec"; "data"; _] = _ |- _ =>
           rewrite py_path_rec_data in Hp
       end.
  all: match goal with
       | |- well_formed_record _ ?t =>
           destruct (t !! "rec") as [[| | | |r|]|] eqn:Hrec;
           try discriminate
       end.
  all: destruct (r !! "data") as [[| | | |dat|]|] eqn:Hdat; try discriminate.
  all: repeat match goal with
       | Hp : match ?x with Some _ => _ | None => _ end = inr _ |- _ =>
           destruct x eqn:?; [injection Hp as ->|discriminate Hp]
       end.
  all: unfold well_formed_record; cbn [side_field]; eauto 10.
Qed.

(** C3: on a request that carries the three connection parameters, each
    option entry point calls the store with the arguments it builds
    from the request; when that call raises, or reports [SUCCESS] with
    a record that is not well formed for the side (no [rec.data]
    record, no [exp_date], no [calls]/[puts], or a table that does not
    decode), the entry point returns status [ERR] with no table: the
    fault does not reach the caller and the scrub routine is not
    called. *)
Theorem fetch_or_decode_failure_gives_ERR s h wd d sm hv pv dv :
  h !! wd = Some d ->
  d !! "redis_host" = Some hv ->
  d !! "redis_port" = Some pv ->
  d !! "redis_db" = Some dv ->
  fetch_failure s
    (get_data_from_redis_key (option_fetch_args s d hv pv dv)) ->
  In (CallRedisGet (option_fetch_args s d hv pv dv))
     (evs (extract_option_dataset s wd sm h)) /\
  out (extract_option_dataset s wd sm h) = Return (VInt ERR, None) /\
  ~ scrub_called (evs (extract_option_dataset s wd sm h)).
Proof.
  intros Hwd Hh Hp Hd Hfail.
  destruct (option_fetch_call s h wd d sm hv pv dv Hwd Hh Hp Hd)
    as [rest Hevs].
  assert (Hin : In (CallRedisGet (option_fetch_args s d hv pv dv))
                   (evs (extract_option_dataset s wd sm h))).
  { rewrite Hevs. right; left. reflexivity. }
  split; [exact Hin|].
  exact (fetch_failure_in_trace_gives_ERR s h wd sm _ Hin Hfail).
Qed.

(** What the code does on a status other than [SUCCESS]: the decoder is
    skipped, but the run goes on to the scrub routine with no table,
    and the value returned is whatever the scrub routine returns, under
    status [SUCCESS]. *)
Lemma non_success_status_reaches_scrub s h wd sm a top st :
  In (CallRedisGet a) (evs (extract_option_dataset s wd sm h)) ->
  get_data_from_redis_key a = Return (VDict top) ->
  top !! "status" = Some st ->
  py_eq_int st SUCCESS = false ->
  ~ decode_called (evs (extract_option_dataset s wd sm h)) /\
  exists sa,
    In (CallScrub sa) (evs (extract_option_dataset s wd sm h)) /\
    sc_df sa = None /\
    out (extract_option_dataset s wd sm h) =
      match extract_scrub_dataset sa with
      | Return t => Return (VInt SUCCESS, t)
      | Raise e => Raise e
      end.
Proof.
  wp_of (extract_option_dataset s wd sm h).
  destruct (h !! wd) as [d|] eqn:Hwd.
  2:{ destruct s; wp_begin; (eapply wp_bind_dict_get_None; [done|]);
      by intros []. }
  destruct s; wp_begin; wp_run.
  all: intros Hin Hget Hst Hne; which_event Hin.
  all: injection Hin as <-.
  all: match goal with
       | Hg : get_data_from_redis_key _ = _ |- _ =>
           rewrite Hg in Hget; try discriminate Hget; injection Hget as ->
       end.
  all: match goal with
       | Hp : py_path (VDict ?t) ["status"] = _, Hs : ?t !! "status" = _
         |- _ =>
           rewrite py_path_status, Hs in Hp; cbn [py_path] in Hp;
           try discriminate Hp; injection Hp as <-
       end.
  all: try congruence.
  all: (split; [intros [j Hj]; which_event Hj|]).
  all: eexists; split; [find_event|].
  all: split; [reflexivity|].
  all: match goal with
       | Hs : extract_scrub_dataset _ = _ |- _ => cbn [sc_df]; by rewrite Hs
       end.
Qed.

(** C4: when the scrub routine is called and raises, both option entry
    points raise that same exception to the caller; it is not turned
    into status [ERR]. *)
Theorem scrub_exception_propagates s h wd sm a e :
  In (CallScrub a) (evs (extract_option_dataset s wd sm h)) ->
  extract_scrub_dataset a = Raise e ->
  out (extract_option_dataset s wd sm h) = Raise e.
Proof.
  wp_of (extract_option_dataset s wd sm h).
  destruct (h !! wd) as [d|] eqn:Hwd.
  2:{ destruct s; wp_begin; (eapply wp_bind_dict_get_None; [done|]);
      by intros []. }
  destruct s; wp_begin; wp_run.
  all: intros Hin Hscrub; which_event Hin.
  all: injection Hin as <-; congruence.
Qed.

(** A scrub call of a run that returns ends the run with status
    [SUCCESS] and the value the call returned. *)
Lemma returning_scrub_call_gives_SUCCESS s h wd sm a t :
  In (CallScrub a) (evs (extract_option_dataset s wd sm h)) ->
  extract_scrub_dataset a = Return t ->
  out (extract_option_dataset s wd sm h) = Return (VInt SUCCESS, t).
Proof.
  wp_of (extract_option_dataset s wd sm h).
  destruct (h !! wd) as [d|] eqn:Hwd.
  2:{ destruct s; wp_begin; (eapply wp_bind_dict_get_None; [done|]);
      by intros []. }
  destruct s; wp_begin; wp_run.
  all: intros Hin Hscrub; which_event Hin.
  all: injection Hin as <-; congruence.
Qed.

(** When the [try] block ends without an exception, the scrub routine
    is called on the table the block left, and the run ends as that
    call ends. *)
Lemma option_scrub_call s h wd d sm hv pv dv top df :
  h !! wd = Some d ->
  d !! "redis_host" = Some hv ->
  d !! "redis_port" = Some pv ->
  d !! "redis_db" = Some dv ->
  get_data_from_redis_key (option_fetch_args s d hv pv dv)
  = Return (VDict top) ->
  try_block_table s top df ->
  In (CallScrub (option_scrub_args s d sm df))
     (evs (extract_option_dataset s wd sm h)) /\
  out (extract_option_dataset s wd sm h) =
    match extract_scrub_dataset (option_scrub_args s d sm df) with
    | Return t => Return (VInt SUCCESS, t)
    | Raise e => Raise e
    end.
Proof.
  intros Hwd Hh Hp Hd Hget Htab.
  unfold option_fetch_args, option_scrub_args, option_label in *.
  rewrite <- resolve_key_default in Hget.
  destruct Htab as [st Hst Hne|r0 dat ex json df Hst Hr Hdt He Hj Hdf].
  - wp_of (extract_option_dataset s wd sm h).
    destruct s; cbn [side_field] in *; wp_begin; wp_run.
    all: repeat match goal with
         | Ha : ?m !! ?k = Some _, Hb : ?m !! ?k = Some _ |- _ =>
             rewrite Ha in Hb; injection Hb as <-
         end.
    all: match goal with
         | Hg : get_data_from_redis_key ?x = ?o,
           Hg' : get_data_from_redis_key _ = Return (VDict ?t) |- _ =>
             assert (Hgo : o = Return (VDict t))
               by (rewrite <- Hg; exact Hg');
             try discriminate Hgo; injection Hgo as ->
         end.
    all: match goal with
         | Hp : py_path (VDict ?t) ["status"] = _, Hs : ?t !! "status" = _
           |- _ =>
             rewrite py_path_status, Hs in Hp; cbn [py_path] in Hp;
             try discriminate Hp; injection Hp as <-
         end.
    all: try congruence.
    all: split; [find_event|].
    all: match goal with
         | Hs : extract_scrub_dataset ?x = _
           |- _ = match extract_scrub_dataset ?y with _ => _ end =>
             change y with x; by rewrite Hs
         end.
  - assert (Hpath : forall k x, dat !! k = Some x ->
              py_path (VDict top) ["rec"; "data"; k] = inr x).
    { intros k x Hk. by rewrite py_path_rec_data, Hr, Hdt, Hk. }
    assert (Hdata : py_path (VDict top) ["rec"; "data"] = inr (VDict dat)).
    { cbn [py_path]. unfold py_getitem. by rewrite Hr, Hdt. }
    pose proof (Hpath _ _ He) as Hpe. pose proof (Hpath _ _ Hj) as Hpj.
    clear Hpath Hr Hdt He Hj.
    wp_of (extract_option_dataset s wd sm h).
    destruct s; cbn [side_field] in *; wp_begin; wp_run.
    all: repeat match goal with
         | Ha : ?m !! ?k = Some _, Hb : ?m !! ?k = Some _ |- _ =>
             rewrite Ha in Hb; injection Hb as <-
         end.
    all: match goal with
         | Hg : get_data_from_redis_key ?x = ?o,
           Hg' : get_data_from_redis_key _ = Return (VDict ?t) |- _ =>
             assert (Hgo : o = Return (VDict t))
               by (rewrite <- Hg; exact Hg');
             try discriminate Hgo; injection Hgo as ->
         end.
    all: match goal with
         | Hp : py_path (VDict ?t) ["status"] = _, Hs : ?t !! "status" = _
           |- _ =>
             rewrite py_path_status, Hs in Hp; cbn [py_path] in Hp;
             try discriminate Hp; injection Hp as <-
         end.
    all: try match goal with
         | Hb : py_eq_int (VInt SUCCESS) SUCCESS = false |- _ =>
             cbn [py_eq_int] in Hb; rewrite bool_decide_eq_false in Hb;
             by destruct Hb
         end.
    all: try congruence.
    all: repeat match goal with
         | Hp : py_path (VDict _) _ = inr ?x |- _ =>
             first [rewrite Hdata in Hp | rewrite Hpe in Hp
                   | rewrite Hpj in Hp];
             injection Hp as <-
         end.
    all: try congruence.
    all: match goal with
         | Hr1 : read_json ?j = Return _, Hr2 : read_json ?j = Return _
           |- _ =>
             rewrite Hr2 in Hr1; injection Hr1 as <-
         end.
    all: split; [find_event|].
    all: match goal with
         | Hs : extract_scrub_dataset ?x = _
           |- _ = match extract_scrub_dataset ?y with _ => _ end =>
             change y with x; by rewrite Hs
         end.
Qed.

(** C5: on a request that carries the three connection parameters and
    a store record on which the [try] block ends without an exception
    (status other than [SUCCESS], or a [SUCCESS] record whose table
    decodes), each option entry point calls the scrub routine on the
    table the block left; when that call returns [t], the entry point
    returns status [SUCCESS] with [t], whatever [t] is; and any scrub
    call of the run that returns gives status [SUCCESS] with its
    value. *)
Theorem scrub_return_gives_SUCCESS s h wd d sm hv pv dv top df t :
  h !! wd = Some d ->
  d !! "redis_host" = Some hv ->
  d !! "redis_port" = Some pv ->
  d !! "redis_db" = Some dv ->
  get_data_from_redis_key (option_fetch_args s d hv pv dv)
  = Return (VDict top) ->
  try_block_table s top df ->
  extract_scrub_dataset (option_scrub_args s d sm df) = Return t ->
  In (CallScrub (option_scrub_args s d sm df))
     (evs (extract_option_dataset s wd sm h)) /\
  out (extract_option_dataset s wd sm h) = Return (VInt SUCCESS, t) /\
  (forall a t',
     In (CallScrub a) (evs (extract_option_dataset s wd sm h)) ->
     extract_scrub_dataset a = Return t' ->
     out (extract_option_dataset s wd sm h) = Return (VInt SUCCESS, t')).
Proof.
  intros Hwd Hh Hp Hd Hget Htab Hscrub.
  destruct (option_scrub_call s h wd d sm hv pv dv top df
              Hwd Hh Hp Hd Hget Htab) as [Hin Hout].
  rewrite Hscrub in Hout.
  split; [exact Hin|]. split; [exact Hout|].
  intros a t'. apply returning_scrub_call_gives_SUCCESS.
Qed.

(** On a well-formed record the decoded table is what the scrub routine
    receives, and the scrub routine's output is what is returned. *)
Lemma well_formed_record_is_decoded_and_scrubbed s h wd sm a top :
  In (CallRedisGet a) (evs (extract_option_dataset s wd sm h)) ->
  get_data_from_redis_key a = Return (VDict top) ->
  top !! "status" = Some (VInt SUCCESS) ->
  well_formed_record s top ->
  exists json df sa,
    py_path (VDict top) ["rec"; "data"; side_field s] = inr json /\
    read_json json = Return df /\
    In (CallReadJson json) (evs (extract_option_dataset s wd sm h)) /\
    In (CallScrub sa) (evs (extract_option_dataset s wd sm h)) /\
    sc_df sa = Some df /\
    out (extract_option_dataset s wd sm h) =
      match extract_scrub_dataset sa with
      | Return t => Return (VInt SUCCESS, t)
      | Raise e => Raise e
      end.
Proof.
  intros Hin Hget Hst (r & dat & ex & json & df & Hr & Hd & He & Hj & Hdf).
  assert (Hpath : forall k x, dat !! k = Some x ->
            py_path (VDict top) ["rec"; "data"; k] = inr x).
  { intros k x Hk. by rewrite py_path_rec_data, Hr, Hd, Hk. }
  assert (Hdata : py_path (VDict top) ["rec"; "data"] = inr (VDict dat)).
  { cbn [py_path]. unfold py_getitem. by rewrite Hr, Hd. }
  pose proof (Hpath _ _ He) as Hpe. pose proof (Hpath _ _ Hj) as Hpj.
  exists json, df. revert Hin.
  wp_of (extract_option_dataset s wd sm h).
  destruct (h !! wd) as [d|] eqn:Hwd.
  2:{ destruct s; wp_begin; (eapply wp_bind_dict_get_None; [done|]);
      by intros []. }
  destruct s; cbn [side_field] in *; wp_begin; wp_run.
  all: intros Hin; which_event Hin.
  all: injection Hin as <-.
  all: match goal with
       | Hg : get_data_from_redis_key _ = _ |- _ =>
           rewrite Hg in Hget; try discriminate Hget; injection Hget as ->
       end.
  all: match goal with
       | Hp : py_path (VDict ?t) ["status"] = _, Hs : ?t !! "status" = _
         |- _ =>
           rewrite py_path_status, Hs in Hp; cbn [py_path] in Hp;
           try discriminate Hp; injection Hp as <-
       end.
  all: try match goal with
       | Hb : py_eq_int (VInt SUCCESS) SUCCESS = false |- _ =>
           cbn [py_eq_int] in Hb; rewrite bool_decide_eq_false in Hb;
           by destruct Hb
       end.
  all: try congruence.
  all: repeat match goal with
       | Hp : py_path (VDict _) _ = inr ?x |- _ =>
           first [rewrite Hdata in Hp | rewrite Hpe in Hp | rewrite Hpj in Hp];
           injection Hp as <-
       end.
  all: try congruence.
  all: match goal with
       | Hr1 : read_json ?j = Return _, Hr2 : read_json ?j = Return _ |- _ =>
           rewrite Hr2 in Hr1; injection Hr1 as <-
       end.
  all: eexists; split; [done|]; split; [done|].
  all: split; [find_event|].
  all: split; [find_event|].
  all: split; [reflexivity|].
  all: match goal with
       | Hs : extract_scrub_dataset _ = _ |- _ => by rewrite Hs
       end.
Qed.

End OptionsPath.

(** * The delegated path: pricing and news *)
Section DelegatedPath.
Context `{C : Collaborators}.
Implicit Types (f : delegated_feed) (h : heap) (d : gmap string pyval).
Implicit Types (wd : loc) (sm : string).

(** The whole run of a delegated entry point: the request is copied to
    a new object, the copy is normalized, and [perform_extract] is
    called on the copy, which it may update. *)
Lemma extract_delegated_run f h wd d sm :
  h !! wd = Some d ->
  let df_type := delegated_df_type f in
  let df_str := get_datafeed_str_yahoo df_type in
  let m := normalize_request (alias_field f) d in
  extract_delegated_dataset f wd sm h =
    Run (perform_extract df_type df_str m sm).1
        (h ++ [(perform_extract df_type df_str m sm).2])
        [Log INFO "{} - {} - start"
           [default (VStr "extract") (d !! "label"); VStr df_str];
         CallPerformExtract df_type df_str (length h) m sm].
Proof.
  intros Hwd df_type df_str m. subst df_type df_str m.
  wp_of (extract_delegated_dataset f wd sm h).
  destruct f; wp_begin; wp_run.
  all: unfold normalize_request; cbn [alias_field delegated_df_type].
  all: repeat match goal with
       | Hb : negb _ = true |- _ => apply negb_true_iff in Hb
       | Hb : negb _ = false |- _ => apply negb_false_iff in Hb
       | Hb : bool_decide _ = true |- _ => apply bool_decide_eq_true in Hb
       | Hb : bool_decide _ = false |- _ => apply bool_decide_eq_false in Hb
       | Hl : <["redis_key" := _]> _ !! _ = _ |- _ =>
           rewrite lookup_insert_ne in Hl; [|discriminate]
       | Hs : ~ is_Some _ |- _ => apply eq_None_not_Some in Hs
       | Hs : is_Some _ |- _ => destruct Hs as [? Hs]
       end.
  all: repeat match goal with
       | Hl : ?x = _ |- context [match ?x with _ => _ end] => rewrite Hl
       end.
  all: try congruence.
  all: repeat match goal with
       | Ha : ?m !! ?k = Some _, Hb : ?m !! ?k = Some _ |- _ =>
           rewrite Ha in Hb; injection Hb as <-
       end.
  all: reflexivity.
Qed.

(** C6: a request without [redis_key] but with the alias field of the
    dataset ([pricing], [news]) reaches [perform_extract] with both
    [redis_key] and [s3_key] set to the alias value; a request that has
    a [redis_key] reaches it with both fields as they were. *)
Theorem alias_normalization f h wd d sm :
  h !! wd = Some d ->
  exists req m,
    In (CallPerformExtract (delegated_df_type f)
          (get_datafeed_str_yahoo (delegated_df_type f)) req m sm)
       (evs (extract_delegated_dataset f wd sm h)) /\
    (forall v,
       d !! "redis_key" = None -> d !! alias_field f = Some v ->
       m !! "redis_key" = Some v /\ m !! "s3_key" = Some v) /\
    (is_Some (d !! "redis_key") ->
       m !! "redis_key" = d !! "redis_key" /\ m !! "s3_key" = d !! "s3_key").
Proof.
  intros Hwd. rewrite (extract_delegated_run f h wd d sm Hwd).
  exists (length h), (normalize_request (alias_field f) d).
  split; [find_event|]. unfold normalize_request. split.
  - intros v -> ->. split.
    + rewrite lookup_insert_ne; [|discriminate]. apply lookup_insert_eq.
    + apply lookup_insert_eq.
  - intros [rk Hrk]. by rewrite Hrk.
Qed.

End DelegatedPath.

(** * The caller's request *)

(** C7: the dictionary the caller passes is the same after the call as
    before it, for each of the four entry points: pricing and news
    write to a copy, the option entry points write nothing. *)
Theorem work_request_unchanged `{C : Collaborators} (h : heap) (wd : loc)
    (d : gmap string pyval) (sm : string) :
  h !! wd = Some d ->
  hp (extract_pricing_dataset wd sm h) !! wd = Some d /\
  hp (extract_yahoo_news_dataset wd sm h) !! wd = Some d /\
  hp (extract_option_calls_dataset wd sm h) !! wd = Some d /\
  hp (extract_option_puts_dataset wd sm h) !! wd = Some d.
Proof.
  intros Hwd.
  pose proof (extract_delegated_run Pricing h wd d sm Hwd) as Hp.
  pose proof (extract_delegated_run News h wd d sm Hwd) as Hn.
  pose proof (option_extract_heap Calls h wd sm) as Hc.
  pose proof (option_extract_heap Puts h wd sm) as Hq.
  cbn [extract_delegated_dataset extract_option_dataset] in *.
  rewrite Hp, Hn, Hc, Hq. cbn [hp].
  repeat split; try done; by apply heap_lookup_old.
Qed.

(** * The statements on the sample world *)
Section Scenarios.
Import Sample.
#[local] Existing Instance world.

Lemma missing_connection_parameter_raises_witness :
  [request_without_port] !! 0%nat = Some request_without_port /\
  (request_without_port !! "redis_host" = None \/
   request_without_port !! "redis_port" = None \/
   request_without_port !! "redis_db" = None) /\
  exists k,
    In k ["redis_host"; "redis_port"; "redis_db"] /\
    request_without_port !! k = None /\
    extract_option_dataset Puts 0%nat "sort-by-date" [request_without_port]
    = Run (Raise (KeyError k)) [request_without_port] [].
Proof.
  split; [reflexivity|]. split; [right; left; reflexivity|].
  apply (missing_connection_parameter_raises Puts);
    [reflexivity | right; left; reflexivity].
Defined.

Lemma option_key_resolution_witness :
  [legacy_request] !! 0%nat = Some legacy_request /\
  legacy_request !! "redis_host" = Some (VStr "h") /\
  legacy_request !! "redis_port" = Some (VInt 6379) /\
  legacy_request !! "redis_db" = Some (VInt 0) /\
  exists label df_str a rest,
    evs (extract_option_dataset Calls 0%nat "sort-by-date" [legacy_request]) =
      Log INFO "{} - {} - start - redis_key={} s3_key={}"
        [label; df_str;
         resolve_key "redis_key" "missing-redis-key" legacy_request;
         resolve_key "s3_key" "missing-s3-key" legacy_request]
      :: CallRedisGet a :: rest /\
    rg_key a = resolve_key "redis_key" "missing-redis-key" legacy_request.
Proof.
  repeat (split; [reflexivity|]).
  apply (option_key_resolution Calls [legacy_request] 0%nat legacy_request
           "sort-by-date" (VStr "h") (VInt 6379) (VInt 0));
    reflexivity.
Defined.

Lemma fetch_or_decode_failure_gives_ERR_witness :
  ([request "opt:MSFT:2024-01-19"] !! 0%nat = Some (request "opt:MSFT:2024-01-19") /\
   request "opt:MSFT:2024-01-19" !! "redis_host" = Some (VStr "h") /\
   request "opt:MSFT:2024-01-19" !! "redis_port" = Some (VInt 6379) /\
   request "opt:MSFT:2024-01-19" !! "redis_db" = Some (VInt 0) /\
   fetch_failure Calls
     (get_data_from_redis_key (option_fetch_args Calls (request "opt:MSFT:2024-01-19") (VStr "h") (VInt 6379) (VInt 0))) /\
   In (CallRedisGet (option_fetch_args Calls (request "opt:MSFT:2024-01-19") (VStr "h") (VInt 6379) (VInt 0)))
      (evs (run_option Calls (request "opt:MSFT:2024-01-19") "sort-by-date")) /\
   out (run_option Calls (request "opt:MSFT:2024-01-19") "sort-by-date") = Return (VInt ERR, None) /\
   ~ scrub_called (evs (run_option Calls (request "opt:MSFT:2024-01-19") "sort-by-date"))) /\
  ([request "opt:down"] !! 0%nat = Some (request "opt:down") /\
   request "opt:down" !! "redis_host" = Some (VStr "h") /\
   request "opt:down" !! "redis_port" = Some (VInt 6379) /\
   request "opt:down" !! "redis_db" = Some (VInt 0) /\
   fetch_failure Puts
     (get_data_from_redis_key (option_fetch_args Puts (request "opt:down") (VStr "h") (VInt 6379) (VInt 0))) /\
   In (CallRedisGet (option_fetch_args Puts (request "opt:down") (VStr "h") (VInt 6379) (VInt 0)))
      (evs (run_option Puts (request "opt:down") "sort-by-date")) /\
   out (run_option Puts (request "opt:down") "sort-by-date") = Return (VInt ERR, None) /\
   ~ scrub_called (evs (run_option Puts (request "opt:down") "sort-by-date"))).
Proof.
  assert (Hc : fetch_failure Calls
    (get_data_from_redis_key (option_fetch_args Calls (request "opt:MSFT:2024-01-19") (VStr "h") (VInt 6379) (VInt 0)))).
  { assert (Hget : get_data_from_redis_key
                     (option_fetch_args Calls (request "opt:MSFT:2024-01-19") (VStr "h") (VInt 6379) (VInt 0))
                   = Return (VDict
                       {[ "status" := VInt 0;
                          "rec" := VDict {[ "data" :=
                            VDict {[ "exp_date" := VStr "2024-01-19" ]} ]} ]}))
      by reflexivity.
    rewrite Hget. apply record_malformed.
    - reflexivity.
    - intros (r & dat & ex & json & df & Hr & Hd & He & Hj & Hdf).
      vm_compute in Hr. injection Hr as <-.
      vm_compute in Hd. injection Hd as <-.
      vm_compute in Hj. discriminate Hj. }
  assert (Hp : fetch_failure Puts
    (get_data_from_redis_key (option_fetch_args Puts (request "opt:down") (VStr "h") (VInt 6379) (VInt 0)))).
  { assert (Hget : get_data_from_redis_key
                     (option_fetch_args Puts (request "opt:down") (VStr "h") (VInt 6379) (VInt 0))
                   = Raise (RaisedBy "redis" "connection refused"))
      by reflexivity.
    rewrite Hget. apply fetch_raised. }
  split.
  - do 4 (split; [reflexivity|]). split; [exact Hc|].
    exact (fetch_or_decode_failure_gives_ERR Calls [request "opt:MSFT:2024-01-19"] 0%nat (request "opt:MSFT:2024-01-19")
             "sort-by-date" (VStr "h") (VInt 6379) (VInt 0) eq_refl eq_refl eq_refl eq_refl Hc).
  - do 4 (split; [reflexivity|]). split; [exact Hp|].
    exact (fetch_or_decode_failure_gives_ERR Puts [request "opt:down"] 0%nat (request "opt:down")
             "sort-by-date" (VStr "h") (VInt 6379) (VInt 0) eq_refl eq_refl eq_refl eq_refl Hp).
Defined.

Lemma scrub_exception_propagates_witness :
  In (CallScrub (scrub_input Calls "by-strike" VNone
                   (Some [[("strike", VInt 100)]])))
     (evs (run_option Calls (request "opt:AAPL:2024-01-19") "by-strike")) /\
  extract_scrub_dataset
    (scrub_input Calls "by-strike" VNone (Some [[("strike", VInt 100)]]))
  = Raise (RaisedBy "scrub" "unsupported scrub mode") /\
  out (run_option Calls (request "opt:AAPL:2024-01-19") "by-strike")
  = Raise (RaisedBy "scrub" "unsupported scrub mode").
Proof.
  assert (Hin : In (CallScrub (scrub_input Calls "by-strike" VNone
                   (Some [[("strike", VInt 100)]])))
     (evs (run_option Calls (request "opt:AAPL:2024-01-19") "by-strike"))).
  { vm_compute. do 8 right; left; reflexivity. }
  split; [exact Hin|]. split; [reflexivity|].
  exact (scrub_exception_propagates Calls _ _ _ _ _ Hin eq_refl).
Defined.

Lemma scrub_return_gives_SUCCESS_witness :
  ([request "opt:AAPL:2024-01-19"] !! 0%nat = Some (request "opt:AAPL:2024-01-19") /\
   request "opt:AAPL:2024-01-19" !! "redis_host" = Some (VStr "h") /\
   request "opt:AAPL:2024-01-19" !! "redis_port" = Some (VInt 6379) /\
   request "opt:AAPL:2024-01-19" !! "redis_db" = Some (VInt 0) /\
   get_data_from_redis_key (option_fetch_args Calls (request "opt:AAPL:2024-01-19") (VStr "h") (VInt 6379) (VInt 0))
   = Return (VDict {[ "status" := VInt 0;
            "rec" := VDict {[ "data" := VDict option_chain ]} ]}) /\
   try_block_table Calls {[ "status" := VInt 0;
            "rec" := VDict {[ "data" := VDict option_chain ]} ]} (Some [[("strike", VInt 100)]]) /\
   extract_scrub_dataset (option_scrub_args Calls (request "opt:AAPL:2024-01-19") "sort-by-date" (Some [[("strike", VInt 100)]]))
   = Return (Some [[("strike", VInt 100)]]) /\
   In (CallScrub (option_scrub_args Calls (request "opt:AAPL:2024-01-19") "sort-by-date" (Some [[("strike", VInt 100)]])))
      (evs (run_option Calls (request "opt:AAPL:2024-01-19") "sort-by-date")) /\
   out (run_option Calls (request "opt:AAPL:2024-01-19") "sort-by-date") = Return (VInt SUCCESS, (Some [[("strike", VInt 100)]])) /\
   (forall a t',
      In (CallScrub a) (evs (run_option Calls (request "opt:AAPL:2024-01-19") "sort-by-date")) ->
      extract_scrub_dataset a = Return t' ->
      out (run_option Calls (request "opt:AAPL:2024-01-19") "sort-by-date") = Return (VInt SUCCESS, t'))) /\
  ([request "opt:none"] !! 0%nat = Some (request "opt:none") /\
   request "opt:none" !! "redis_host" = Some (VStr "h") /\
   request "opt:none" !! "redis_port" = Some (VInt 6379) /\
   request "opt:none" !! "redis_db" = Some (VInt 0) /\
   get_data_from_redis_key (option_fetch_args Puts (request "opt:none") (VStr "h") (VInt 6379) (VInt 0))
   = Return (VDict {[ "status" := VInt 4 ]}) /\
   try_block_table Puts {[ "status" := VInt 4 ]} (@None table) /\
   extract_scrub_dataset (option_scrub_args Puts (request "opt:none") "sort-by-date" (@None table))
   = Return (@None table) /\
   In (CallScrub (option_scrub_args Puts (request "opt:none") "sort-by-date" (@None table)))
      (evs (run_option Puts (request "opt:none") "sort-by-date")) /\
   out (run_option Puts (request "opt:none") "sort-by-date") = Return (VInt SUCCESS, (@None table)) /\
   (forall a t',
      In (CallScrub a) (evs (run_option Puts (request "opt:none") "sort-by-date")) ->
      extract_scrub_dataset a = Return t' ->
      out (run_option Puts (request "opt:none") "sort-by-date") = Return (VInt SUCCESS, t'))).
Proof.
  assert (Hc : try_block_table Calls
                 {[ "status" := VInt 0;
            "rec" := VDict {[ "data" := VDict option_chain ]} ]} (Some [[("strike", VInt 100)]])).
  { exact (table_decoded Calls
             {[ "status" := VInt 0;
                "rec" := VDict {[ "data" := VDict option_chain ]} ]}
             {[ "data" := VDict option_chain ]}
             option_chain (VStr "2024-01-19") (VStr one_row_json)
             [[("strike", VInt 100)]]
             eq_refl eq_refl eq_refl eq_refl eq_refl eq_refl). }
  assert (Hp : try_block_table Puts {[ "status" := VInt 4 ]} (@None table)).
  { exact (table_not_decoded Puts {[ "status" := VInt 4 ]} (VInt 4)
             eq_refl eq_refl). }
  split.
  - do 4 (split; [reflexivity|]). split; [reflexivity|].
    split; [exact Hc|]. split; [reflexivity|].
    exact (scrub_return_gives_SUCCESS Calls [request "opt:AAPL:2024-01-19"] 0%nat (request "opt:AAPL:2024-01-19") "sort-by-date"
             (VStr "h") (VInt 6379) (VInt 0) _ _ _
             eq_refl eq_refl eq_refl eq_refl eq_refl Hc eq_refl).
  - do 4 (split; [reflexivity|]). split; [reflexivity|].
    split; [exact Hp|]. split; [reflexivity|].
    exact (scrub_return_gives_SUCCESS Puts [request "opt:none"] 0%nat (request "opt:none") "sort-by-date"
             (VStr "h") (VInt 6379) (VInt 0) _ _ _
             eq_refl eq_refl eq_refl eq_refl eq_refl Hp eq_refl).
Defined.

Lemma alias_normalization_witness :
  [legacy_request] !! 0%nat = Some legacy_request /\
  exists req m,
    In (CallPerformExtract (delegated_df_type Pricing)
          (get_datafeed_str_yahoo (delegated_df_type Pricing)) req m
          "sort-by-date")
       (evs (extract_delegated_dataset Pricing 0%nat "sort-by-date"
               [legacy_request])) /\
    (forall v,
       legacy_request !! "redis_key" = None ->
       legacy_request !! alias_field Pricing = Some v ->
       m !! "redis_key" = Some v /\ m !! "s3_key" = Some v) /\
    (is_Some (legacy_request !! "redis_key") ->
       m !! "redis_key" = legacy_request !! "redis_key" /\
       m !! "s3_key" = legacy_request !! "s3_key").
Proof.
  split; [reflexivity|].
  apply (alias_normalization Pricing [legacy_request] 0%nat legacy_request
           "sort-by-date").
  reflexivity.
Defined.

Lemma work_request_unchanged_witness :
  [legacy_request] !! 0%nat = Some legacy_request /\
  hp (extract_pricing_dataset 0%nat "sort-by-date" [legacy_request]) !! 0%nat
    = Some legacy_request /\
  hp (extract_yahoo_news_dataset 0%nat "sort-by-date" [legacy_request])
    !! 0%nat = Some legacy_request /\
  hp (extract_option_calls_dataset 0%nat "sort-by-date" [legacy_request])
    !! 0%nat = Some legacy_request /\
  hp (extract_option_puts_dataset 0%nat "sort-by-date" [legacy_request])
    !! 0%nat = Some legacy_request.
Proof.
  split; [reflexivity|].
  apply (work_request_unchanged [legacy_request] 0%nat legacy_request
           "sort-by-date").
  reflexivity.
Defined.

(** C1, as the code behaves: on a cache miss the store reports
    [NOT_RUN]; both option entry points then skip the decoder, call the
    scrub routine with no table and return status [SUCCESS], not
    [NOT_RUN]. *)
Theorem cache_miss_is_scrubbed_and_reported_SUCCESS :
  (get_data_from_redis_key (fetch_args Calls "opt:none")
   = Return (VDict {[ "status" := VInt NOT_RUN ]}) /\
   In (CallRedisGet (fetch_args Calls "opt:none"))
      (evs (run_option Calls (request "opt:none") "sort-by-date")) /\
   In (CallScrub (scrub_input Calls "sort-by-date" VNone None))
      (evs (run_option Calls (request "opt:none") "sort-by-date")) /\
   out (run_option Calls (request "opt:none") "sort-by-date")
   = Return (VInt SUCCESS, None) /\
   out (run_option Calls (request "opt:none") "sort-by-date")
   <> Return (VInt NOT_RUN, None)) /\
  (get_data_from_redis_key (fetch_args Puts "opt:none")
   = Return (VDict {[ "status" := VInt NOT_RUN ]}) /\
   In (CallRedisGet (fetch_args Puts "opt:none"))
      (evs (run_option Puts (request "opt:none") "sort-by-date")) /\
   In (CallScrub (scrub_input Puts "sort-by-date" VNone None))
      (evs (run_option Puts (request "opt:none") "sort-by-date")) /\
   out (run_option Puts (request "opt:none") "sort-by-date")
   = Return (VInt SUCCESS, None) /\
   out (run_option Puts (request "opt:none") "sort-by-date")
   <> Return (VInt NOT_RUN, None)).
Proof.
  split.
  all: split; [reflexivity|].
  all: split; [vm_compute; right; left; reflexivity|].
  all: split; [vm_compute; do 5 right; left; reflexivity|].
  all: split; [reflexivity|].
  all: vm_compute; discriminate.
Qed.

(** C2, as the code behaves: the request of the scenario holds the host
    ["h"], the port [6379] and the database [0]; the store is called
    with the one-element tuples [("h",)], [(6379,)] and [(0,)], which
    are not those values. *)
Theorem connection_parameters_are_passed_as_tuples :
  request "opt:AAPL:2024-01-19" !! "redis_host" = Some (VStr "h") /\
  request "opt:AAPL:2024-01-19" !! "redis_port" = Some (VInt 6379) /\
  request "opt:AAPL:2024-01-19" !! "redis_db" = Some (VInt 0) /\
  (forall s a,
     In (CallRedisGet a)
        (evs (run_option s (request "opt:AAPL:2024-01-19") "sort-by-date")) ->
     rg_host a = VTuple [VStr "h"] /\ rg_host a <> VStr "h" /\
     rg_port a = VTuple [VInt 6379] /\ rg_port a <> VInt 6379 /\
     rg_db a = VTuple [VInt 0] /\ rg_db a <> VInt 0) /\
  In (CallRedisGet (fetch_args Calls "opt:AAPL:2024-01-19"))
     (evs (run_option Calls (request "opt:AAPL:2024-01-19") "sort-by-date")) /\
  In (CallRedisGet (fetch_args Puts "opt:AAPL:2024-01-19"))
     (evs (run_option Puts (request "opt:AAPL:2024-01-19") "sort-by-date")).
Proof.
  do 3 (split; [reflexivity|]).
  split.
  - intros s a Hin. destruct s; vm_compute in Hin.
    all: repeat (destruct Hin as [Hin|Hin]; [try discriminate Hin|]);
      [|destruct Hin].
    all: injection Hin as <-.
    all: repeat split; discriminate.
  - split; vm_compute; right; left; reflexivity.
Qed.

End Scenarios.

(** * Further properties of the options path *)
Section OptionsMore.
Context `{C : Collaborators}.
Implicit Types (s : option_side) (h : heap) (d top : gmap string pyval).
Implicit Types (wd : loc) (sm k : string).

Lemma py_eq_int_true v n : py_eq_int v n = true -> v = VInt n.
Proof.
  destruct v; cbn [py_eq_int]; try discriminate.
  intros Hb. apply bool_decide_eq_true in Hb. by subst.
Qed.

(** X1: a pair returned by an option entry point is either
    [(ERR, None)], with the scrub routine not called, or [(SUCCESS, t)]
    with [t] the value a scrub call of that run returned. *)
Theorem option_status_is_ERR_or_SUCCESS s h wd sm st t :
  out (extract_option_dataset s wd sm h) = Return (st, t) ->
  (st = VInt ERR /\ t = None /\
   ~ scrub_called (evs (extract_option_dataset s wd sm h))) \/
  (st = VInt SUCCESS /\
   exists a,
     In (CallScrub a) (evs (extract_option_dataset s wd sm h)) /\
     extract_scrub_dataset a = Return t).
Proof.
  wp_of (extract_option_dataset s wd sm h).
  destruct (h !! wd) as [d|] eqn:Hwd.
  2:{ destruct s; wp_begin; (eapply wp_bind_dict_get_None; [done|]);
      discriminate. }
  destruct s; wp_begin; wp_run.
  all: intros Hout; try discriminate Hout.
  all: injection Hout as <- <-.
  all: first
    [ left; split; [reflexivity|]; split; [reflexivity|];
      intros [sa Hsa]; which_event Hsa
    | right; split; [reflexivity|]; eexists; split; [find_event|];
      assumption ].
Qed.

(** X2: an exception that leaves an option entry point called on a
    dictionary is either the [KeyError] of a connection parameter the
    request lacks, raised before anything is logged or called, or the
    exception a scrub call raised. *)
Theorem option_exception_is_KeyError_or_from_scrub s h wd d sm e :
  h !! wd = Some d ->
  out (extract_option_dataset s wd sm h) = Raise e ->
  (exists k,
     In k ["redis_host"; "redis_port"; "redis_db"] /\ d !! k = None /\
     e = KeyError k /\ evs (extract_option_dataset s wd sm h) = []) \/
  (exists a,
     In (CallScrub a) (evs (extract_option_dataset s wd sm h)) /\
     extract_scrub_dataset a = Raise e).
Proof.
  intros Hwd.
  wp_of (extract_option_dataset s wd sm h).
  destruct s; wp_begin; wp_run.
  all: intros Hout; try discriminate Hout.
  all: injection Hout as <-.
  all: first
    [ left; eexists; split; [|split; [eassumption|split; reflexivity]];
      cbn; tauto
    | right; eexists; split; [find_event|]; assumption ].
Qed.

(** X3: the collaborator calls of an option run, in order, are one
    of: none; the store; the store then the scrub routine; the store
    then the decoder; the store, the decoder, then the scrub routine.
    Each is called at most once and [perform_extract] never. *)
Theorem option_call_protocol s h wd sm :
  In (call_kinds (evs (extract_option_dataset s wd sm h)))
     [ []; [KFetch]; [KFetch; KScrub]; [KFetch; KDecode];
       [KFetch; KDecode; KScrub] ].
Proof.
  wp_of (extract_option_dataset s wd sm h).
  destruct (h !! wd) as [d|] eqn:Hwd.
  2:{ destruct s; wp_begin; (eapply wp_bind_dict_get_None; [done|]);
      by left. }
  destruct s; wp_begin; wp_run.
  all: cbn [call_kinds call_kind_of]; find_event.
Qed.

(** X4: when the value the store call returns cannot be subscripted
    with ['status'] (it is not a dictionary, or has no such entry), the
    option entry points return [(ERR, None)] and call neither the
    decoder nor the scrub routine. *)
Theorem record_without_status_gives_ERR s h wd sm a v e :
  In (CallRedisGet a) (evs (extract_option_dataset s wd sm h)) ->
  get_data_from_redis_key a = Return v ->
  py_getitem v "status" = inl e ->
  out (extract_option_dataset s wd sm h) = Return (VInt ERR, None) /\
  ~ decode_called (evs (extract_option_dataset s wd sm h)) /\
  ~ scrub_called (evs (extract_option_dataset s wd sm h)).
Proof.
  wp_of (extract_option_dataset s wd sm h).
  destruct (h !! wd) as [d|] eqn:Hwd.
  2:{ destruct s; wp_begin; (eapply wp_bind_dict_get_None; [done|]);
      by intros []. }
  destruct s; wp_begin; wp_run.
  all: intros Hin Hget Hst; which_event Hin.
  all: injection Hin as <-.
  all: match goal with
       | Hg : get_data_from_redis_key _ = _ |- _ =>
           rewrite Hg in Hget; try discriminate Hget; injection Hget as ->
       end.
  all: match goal with
       | Hp : py_path _ ["status"] = _ |- _ =>
           cbn [py_path] in Hp; rewrite Hst in Hp; try discriminate Hp
       end.
  all: split; [reflexivity|].
  all: split; [intros [j Hj]; which_event Hj|intros [j Hj]; which_event Hj].
Qed.

(** X5: on a [SUCCESS] record whose [rec.data] holds an [exp_date]
    and the side's serialized table, and whose table decodes to [df],
    the outcome is that of the scrub routine on [df], called with the
    suffixed label, the caller's scrub mode, the options datafeed type
    and the request's [ticker]: its value under [SUCCESS], or its
    exception.  The [exp_date] and the other side's table play no part. *)
Theorem well_formed_record_result s h wd d sm a top r0 dat exp_date json df :
  h !! wd = Some d ->
  In (CallRedisGet a) (evs (extract_option_dataset s wd sm h)) ->
  get_data_from_redis_key a = Return (VDict top) ->
  top !! "status" = Some (VInt SUCCESS) ->
  top !! "rec" = Some (VDict r0) ->
  r0 !! "data" = Some (VDict dat) ->
  dat !! "exp_date" = Some exp_date ->
  dat !! side_field s = Some json ->
  read_json json = Return df ->
  out (extract_option_dataset s wd sm h) =
    match
      extract_scrub_dataset
        (ScrubArgs (option_label s d) sm DATAFEED_OPTIONS_YAHOO
           "df={} date_str={}" (default VNone (d !! "ticker")) (Some df))
    with
    | Return t => Return (VInt SUCCESS, t)
    | Raise e => Raise e
    end.
Proof.
  intros Hwd Hin Hget Hst Hr Hd He Hj Hdf.
  assert (Hpath : forall k x, dat !! k = Some x ->
            py_path (VDict top) ["rec"; "data"; k] = inr x).
  { intros k x Hk. by rewrite py_path_rec_data, Hr, Hd, Hk. }
  assert (Hdata : py_path (VDict top) ["rec"; "data"] = inr (VDict dat)).
  { cbn [py_path]. unfold py_getitem. by rewrite Hr, Hd. }
  pose proof (Hpath _ _ He) as Hpe. pose proof (Hpath _ _ Hj) as Hpj.
  clear Hpath Hr Hd He Hj.
  unfold option_label. revert Hin.
  wp_of (extract_option_dataset s wd sm h).
  destruct s; cbn [side_field] in *; wp_begin; wp_run.
  all: intros Hin; which_event Hin.
  all: injection Hin as <-.
  all: match goal with
       | Hg : get_data_from_redis_key _ = _ |- _ =>
           rewrite Hg in Hget; try discriminate Hget; injection Hget as ->
       end.
  all: match goal with
       | Hp : py_path (VDict ?t) ["status"] = _, Hs : ?t !! "status" = _
         |- _ =>
           rewrite py_path_status, Hs in Hp; cbn [py_path] in Hp;
           try discriminate Hp; injection Hp as <-
       end.
  all: try match goal with
       | Hb : py_eq_int (VInt SUCCESS) SUCCESS = false |- _ =>
           cbn [py_eq_int] in Hb; rewrite bool_decide_eq_false in Hb;
           by destruct Hb
       end.
  all: try congruence.
  all: repeat match goal with
       | Hp : py_path (VDict _) _ = inr ?x |- _ =>
           first [rewrite Hdata in Hp | rewrite Hpe in Hp | rewrite Hpj in Hp];
           injection Hp as <-
       end.
  all: try congruence.
  all: match goal with
       | Hr1 : read_json ?j = Return _, Hr2 : read_json ?j = Return _ |- _ =>
           rewrite Hr2 in Hr1; injection Hr1 as <-
       end.
  all: match goal with
       | Hs : extract_scrub_dataset ?x = _
         |- _ = match extract_scrub_dataset ?y with _ => _ end =>
           change y with x; by rewrite Hs
       end.
Qed.

(** X6: whatever the decoder is called on is the side's field of
    [rec.data] in a record that the store call of the same run returned
    with status [SUCCESS]. *)
Theorem decoder_input_is_side_of_SUCCESS_record s h wd sm json :
  In (CallReadJson json) (evs (extract_option_dataset s wd sm h)) ->
  exists a redis_rec,
    In (CallRedisGet a) (evs (extract_option_dataset s wd sm h)) /\
    get_data_from_redis_key a = Return redis_rec /\
    py_path redis_rec ["status"] = inr (VInt SUCCESS) /\
    py_path redis_rec ["rec"; "data"; side_field s] = inr json.
Proof.
  wp_of (extract_option_dataset s wd sm h).
  destruct (h !! wd) as [d|] eqn:Hwd.
  2:{ destruct s; wp_begin; (eapply wp_bind_dict_get_None; [done|]);
      by intros []. }
  destruct s; cbn [side_field]; wp_begin; wp_run.
  all: intros Hin; which_event Hin.
  all: injection Hin as <-.
  all: match goal with
       | Hb : py_eq_int _ SUCCESS = true |- _ =>
           apply py_eq_int_true in Hb; subst
       end.
  all: do 2 eexists; split; [find_event|].
  all: split; [eassumption|]; split; assumption.
Qed.

(** X7: every scrub call of an option run carries the suffixed label,
    the caller's scrub mode, the options datafeed type and the
    request's [ticker] ([None] without one); its table is either [None],
    in a run that did not decode, or a table the decoder returned in
    the same run. *)
Theorem scrub_arguments s h wd d sm a :
  h !! wd = Some d ->
  In (CallScrub a) (evs (extract_option_dataset s wd sm h)) ->
  sc_label a = option_label s d /\
  sc_scrub_mode a = sm /\
  sc_datafeed_type a = DATAFEED_OPTIONS_YAHOO /\
  sc_ds_id a = default VNone (d !! "ticker") /\
  ((sc_df a = None /\
    ~ decode_called (evs (extract_option_dataset s wd sm h))) \/
   (exists json df,
      In (CallReadJson json) (evs (extract_option_dataset s wd sm h)) /\
      read_json json = Return df /\ sc_df a = Some df)).
Proof.
  intros Hwd. unfold option_label.
  wp_of (extract_option_dataset s wd sm h).
  destruct s; cbn [side_field]; wp_begin; wp_run.
  all: intros Hin; which_event Hin.
  all: injection Hin as <-.
  all: do 4 (split; [reflexivity|]).
  all: first
    [ left; split; [reflexivity|]; intros [j Hj]; which_event Hj
    | right; do 2 eexists; split; [find_event|]; split;
      [eassumption|reflexivity] ].
Qed.

(** The arguments of every store call of a run. *)
Lemma option_fetch_arguments s h wd d sm a :
  h !! wd = Some d ->
  In (CallRedisGet a) (evs (extract_option_dataset s wd sm h)) ->
  exists hv pv dv,
    d !! "redis_host" = Some hv /\ d !! "redis_port" = Some pv /\
    d !! "redis_db" = Some dv /\
    a = RedisGetArgs (option_label s d) (VTuple [hv]) (VTuple [pv])
          (VTuple [dv]) (default VNone (d !! "password"))
          (resolve_key "redis_key" "missing-redis-key" d).
Proof.
  intros Hwd. unfold option_label. rewrite <- resolve_key_default.
  wp_of (extract_option_dataset s wd sm h).
  destruct s; cbn [side_field]; wp_begin; wp_run.
  all: intros Hin; which_event Hin.
  all: injection Hin as <-.
  all: do 3 eexists; do 3 (split; [eassumption|]); reflexivity.
Qed.

(** X8: on the same request the calls and the puts entry points ask
    the store for the same record: key, host, port, database and
    password agree, whatever the scrub modes. *)
Theorem calls_and_puts_fetch_the_same_record h wd d sm sm' a b :
  h !! wd = Some d ->
  In (CallRedisGet a) (evs (extract_option_calls_dataset wd sm h)) ->
  In (CallRedisGet b) (evs (extract_option_puts_dataset wd sm' h)) ->
  rg_key a = rg_key b /\ rg_host a = rg_host b /\ rg_port a = rg_port b /\
  rg_db a = rg_db b /\ rg_password a = rg_password b.
Proof.
  intros Hwd Ha Hb.
  destruct (option_fetch_arguments Calls h wd d sm a Hwd Ha)
    as (hv & pv & dv & Hh & Hp & Hd & ->).
  destruct (option_fetch_arguments Puts h wd d sm' b Hwd Hb)
    as (hv' & pv' & dv' & Hh' & Hp' & Hd' & ->).
  cbn. repeat split; congruence.
Qed.

End OptionsMore.

(** * Further properties of the delegated path *)
Section DelegatedMore.
Context `{C : Collaborators}.
Implicit Types (f : delegated_feed) (h : heap) (d m : gmap string pyval).
Implicit Types (wd req : loc) (sm : string).

Lemma normalize_request_fixed alias d :
  normalize_request alias (normalize_request alias d)
  = normalize_request alias d.
Proof.
  destruct (d !! "redis_key") as [rk|] eqn:Hk.
  - assert (Hn : normalize_request alias d = d).
    { unfold normalize_request. by rewrite Hk. }
    by rewrite !Hn.
  - destruct (d !! alias) as [v|] eqn:Ha.
    + assert (Hn : normalize_request alias d
                   = <["s3_key" := v]> (<["redis_key" := v]> d)).
      { unfold normalize_request. by rewrite Hk, Ha. }
      rewrite Hn. unfold normalize_request at 1.
      rewrite lookup_insert_ne; [|discriminate].
      by rewrite lookup_insert_eq.
    + assert (Hn : normalize_request alias d = d).
      { unfold normalize_request. by rewrite Hk, Ha. }
      by rewrite !Hn.
Qed.

(** The request passed on, read off the trace. *)
Lemma delegated_request_passed f h wd d sm df_type df_str req m sm' :
  h !! wd = Some d ->
  In (CallPerformExtract df_type df_str req m sm')
     (evs (extract_delegated_dataset f wd sm h)) ->
  m = normalize_request (alias_field f) d /\ req = length h /\ sm' = sm /\
  df_type = delegated_df_type f /\
  df_str = get_datafeed_str_yahoo (delegated_df_type f).
Proof.
  intros Hwd Hin. rewrite (extract_delegated_run f h wd d sm Hwd) in Hin.
  cbn [evs] in Hin. which_event Hin. by injection Hin as <- <- <- <- <-.
Qed.

(** X9: a delegated entry point called on a dictionary logs its start
    line, calls [perform_extract] once on the copy, and ends as that
    call ends: with its value, or with its exception. *)
Theorem delegated_outcome_is_perform_extract f h wd d sm :
  h !! wd = Some d ->
  exists m,
    evs (extract_delegated_dataset f wd sm h) =
      [Log INFO "{} - {} - start"
         [default (VStr "extract") (d !! "label");
          VStr (get_datafeed_str_yahoo (delegated_df_type f))];
       CallPerformExtract (delegated_df_type f)
         (get_datafeed_str_yahoo (delegated_df_type f)) (length h) m sm] /\
    out (extract_delegated_dataset f wd sm h) =
      (perform_extract (delegated_df_type f)
         (get_datafeed_str_yahoo (delegated_df_type f)) m sm).1.
Proof.
  intros Hwd. rewrite (extract_delegated_run f h wd d sm Hwd).
  by eexists.
Qed.

(** X10: the request passed to [perform_extract] agrees with the
    caller's request on every field other than [redis_key] and
    [s3_key]. *)
Theorem normalization_touches_only_the_keys f h wd d sm df_type df_str req m
    sm' k :
  h !! wd = Some d ->
  In (CallPerformExtract df_type df_str req m sm')
     (evs (extract_delegated_dataset f wd sm h)) ->
  k <> "redis_key" -> k <> "s3_key" ->
  m !! k = d !! k.
Proof.
  intros Hwd Hin Hk1 Hk2.
  destruct (delegated_request_passed _ _ _ _ _ _ _ _ _ _ Hwd Hin) as [-> _].
  unfold normalize_request.
  destruct (d !! "redis_key"); [done|].
  destruct (d !! alias_field f); [|done].
  rewrite !lookup_insert_ne; [done|congruence|congruence].
Qed.

(** X11: without the alias field of the dataset, the request is
    passed to [perform_extract] as it is; in particular a missing
    [redis_key] stays missing, and the alias of the other dataset is
    not used. *)
Theorem request_without_alias_is_passed_as_is f h wd d sm df_type df_str req
    m sm' :
  h !! wd = Some d ->
  In (CallPerformExtract df_type df_str req m sm')
     (evs (extract_delegated_dataset f wd sm h)) ->
  d !! alias_field f = None ->
  m = d.
Proof.
  intros Hwd Hin Hno.
  destruct (delegated_request_passed _ _ _ _ _ _ _ _ _ _ Hwd Hin) as [-> _].
  unfold normalize_request. rewrite Hno. by destruct (d !! "redis_key").
Qed.

(** X12: normalization is idempotent: a request that a delegated
    entry point passed to [perform_extract], submitted to the same
    entry point, is passed on unchanged. *)
Theorem normalization_is_idempotent f h wd d sm df_type df_str req m sm'
    h' wd' :
  h !! wd = Some d ->
  In (CallPerformExtract df_type df_str req m sm')
     (evs (extract_delegated_dataset f wd sm h)) ->
  h' !! wd' = Some m ->
  In (CallPerformExtract df_type df_str (length h') m sm')
     (evs (extract_delegated_dataset f wd' sm' h')).
Proof.
  intros Hwd Hin Hwd'.
  destruct (delegated_request_passed _ _ _ _ _ _ _ _ _ _ Hwd Hin)
    as (-> & -> & -> & -> & ->).
  rewrite (extract_delegated_run f h' wd' _ sm Hwd'). cbn [evs In].
  right; left. f_equal. apply normalize_request_fixed.
Qed.

End DelegatedMore.

(** X13: heap effect of the four entry points: pricing and news add
    one dictionary, the copy, on top of the caller's objects and leave
    those as they are; the option entry points leave the heap as it
    is. *)
Theorem entry_points_keep_the_heap `{C : Collaborators} (h : heap) (wd : loc)
    (d : gmap string pyval) (sm : string) :
  h !! wd = Some d ->
  (forall f, exists m',
     hp (extract_delegated_dataset f wd sm h) = h ++ [m']) /\
  (forall s, hp (extract_option_dataset s wd sm h) = h).
Proof.
  intros Hwd. split.
  - intros f. rewrite (extract_delegated_run f h wd d sm Hwd). by eexists.
  - intros s. apply option_extract_heap.
Qed.

(** * The further properties on the sample worlds *)
Section ScenariosMore.
Import Sample.
#[local] Existing Instance world.

Lemma option_status_is_ERR_or_SUCCESS_witness :
  (out (run_option Puts (request "opt:MSFT:2024-01-19") "sort-by-date")
   = Return (VInt 2, None) /\
   ((VInt 2 = VInt ERR /\ @None table = None /\
     ~ scrub_called
         (evs (run_option Puts (request "opt:MSFT:2024-01-19")
                 "sort-by-date")))
    \/
    (VInt 2 = VInt SUCCESS /\
     exists a,
       In (CallScrub a)
          (evs (run_option Puts (request "opt:MSFT:2024-01-19")
                  "sort-by-date")) /\
       extract_scrub_dataset a = Return None))) /\
  (out (run_option Calls (request "opt:AAPL:2024-01-19") "sort-by-date")
   = Return (VInt 0, Some [[("strike", VInt 100)]]) /\
   ((VInt 0 = VInt ERR /\ Some [[("strike", VInt 100)]] = None /\
     ~ scrub_called
         (evs (run_option Calls (request "opt:AAPL:2024-01-19")
                 "sort-by-date")))
    \/
    (VInt 0 = VInt SUCCESS /\
     exists a,
       In (CallScrub a)
          (evs (run_option Calls (request "opt:AAPL:2024-01-19")
                  "sort-by-date")) /\
       extract_scrub_dataset a = Return (Some [[("strike", VInt 100)]])))).
Proof.
  split.
  - split; [reflexivity|].
    exact (option_status_is_ERR_or_SUCCESS Puts
             [request "opt:MSFT:2024-01-19"] 0%nat "sort-by-date"
             (VInt 2) None eq_refl).
  - split; [reflexivity|].
    exact (option_status_is_ERR_or_SUCCESS Calls
             [request "opt:AAPL:2024-01-19"] 0%nat "sort-by-date"
             (VInt 0) (Some [[("strike", VInt 100)]]) eq_refl).
Defined.

Lemma option_exception_is_KeyError_or_from_scrub_witness :
  [request "opt:none"] !! 0%nat = Some (request "opt:none") /\
  out (run_option Calls (request "opt:none") "by-strike")
  = Raise (RaisedBy "scrub" "unsupported scrub mode") /\
  ((exists k,
      In k ["redis_host"; "redis_port"; "redis_db"] /\
      request "opt:none" !! k = None /\
      RaisedBy "scrub" "unsupported scrub mode" = KeyError k /\
      evs (run_option Calls (request "opt:none") "by-strike") = []) \/
   (exists a,
      In (CallScrub a) (evs (run_option Calls (request "opt:none") "by-strike"))
      /\ extract_scrub_dataset a
         = Raise (RaisedBy "scrub" "unsupported scrub mode"))).
Proof.
  split; [reflexivity|]. split; [reflexivity|].
  exact (option_exception_is_KeyError_or_from_scrub Calls
           [request "opt:none"] 0%nat (request "opt:none") "by-strike"
           (RaisedBy "scrub" "unsupported scrub mode") eq_refl eq_refl).
Defined.

Lemma record_without_status_gives_ERR_witness :
  (In (CallRedisGet (fetch_args Calls "opt:AAPL:2024-01-19"))
      (evs (@extract_option_dataset SampleBare.world Calls 0%nat "sort-by-date"
             [request "opt:AAPL:2024-01-19"])) /\
   @get_data_from_redis_key SampleBare.world
     (fetch_args Calls "opt:AAPL:2024-01-19") = Return VNone /\
   py_getitem VNone "status" = inl TypeError /\
   out (@extract_option_dataset SampleBare.world Calls 0%nat "sort-by-date"
             [request "opt:AAPL:2024-01-19"]) = Return (VInt 2, None) /\
   ~ @decode_called SampleBare.world
       (evs (@extract_option_dataset SampleBare.world Calls 0%nat "sort-by-date"
             [request "opt:AAPL:2024-01-19"])) /\
   ~ @scrub_called SampleBare.world
       (evs (@extract_option_dataset SampleBare.world Calls 0%nat "sort-by-date"
             [request "opt:AAPL:2024-01-19"]))) /\
  (In (CallRedisGet (fetch_args Puts "opt:AAPL:2024-01-19"))
      (evs (@extract_option_dataset SampleBare.world Puts 0%nat "sort-by-date"
             [request "opt:AAPL:2024-01-19"])) /\
   @get_data_from_redis_key SampleBare.world
     (fetch_args Puts "opt:AAPL:2024-01-19") = Return VNone /\
   py_getitem VNone "status" = inl TypeError /\
   out (@extract_option_dataset SampleBare.world Puts 0%nat "sort-by-date"
             [request "opt:AAPL:2024-01-19"]) = Return (VInt 2, None) /\
   ~ @decode_called SampleBare.world
       (evs (@extract_option_dataset SampleBare.world Puts 0%nat "sort-by-date"
             [request "opt:AAPL:2024-01-19"])) /\
   ~ @scrub_called SampleBare.world
       (evs (@extract_option_dataset SampleBare.world Puts 0%nat "sort-by-date"
             [request "opt:AAPL:2024-01-19"]))).
Proof.
  split.
  - assert (Hin : In (CallRedisGet (fetch_args Calls "opt:AAPL:2024-01-19"))
       (evs (@extract_option_dataset SampleBare.world Calls 0%nat
               "sort-by-date" [request "opt:AAPL:2024-01-19"]))).
    { vm_compute. right; left; reflexivity. }
    split; [exact Hin|]. split; [reflexivity|]. split; [reflexivity|].
    exact (@record_without_status_gives_ERR SampleBare.world Calls
             [request "opt:AAPL:2024-01-19"] 0%nat "sort-by-date"
             (fetch_args Calls "opt:AAPL:2024-01-19")
             VNone TypeError Hin eq_refl eq_refl).
  - assert (Hin : In (CallRedisGet (fetch_args Puts "opt:AAPL:2024-01-19"))
       (evs (@extract_option_dataset SampleBare.world Puts 0%nat
               "sort-by-date" [request "opt:AAPL:2024-01-19"]))).
    { vm_compute. right; left; reflexivity. }
    split; [exact Hin|]. split; [reflexivity|]. split; [reflexivity|].
    exact (@record_without_status_gives_ERR SampleBare.world Puts
             [request "opt:AAPL:2024-01-19"] 0%nat "sort-by-date"
             (fetch_args Puts "opt:AAPL:2024-01-19")
             VNone TypeError Hin eq_refl eq_refl).
Defined.

Lemma well_formed_record_result_witness :
  ([request "opt:AAPL:2024-01-19"] !! 0%nat
   = Some (request "opt:AAPL:2024-01-19") /\
   In (CallRedisGet (fetch_args Calls "opt:AAPL:2024-01-19"))
      (evs (run_option Calls (request "opt:AAPL:2024-01-19") "sort-by-date")) /\
   get_data_from_redis_key (fetch_args Calls "opt:AAPL:2024-01-19")
   = Return (found option_chain) /\
   option_chain !! "exp_date" = Some (VStr "2024-01-19") /\
   option_chain !! "calls" = Some (VStr one_row_json) /\
   read_json (VStr one_row_json) = Return [[("strike", VInt 100)]] /\
   out (run_option Calls (request "opt:AAPL:2024-01-19") "sort-by-date")
   = match
       extract_scrub_dataset
         (ScrubArgs (option_label Calls (request "opt:AAPL:2024-01-19"))
            "sort-by-date" DATAFEED_OPTIONS_YAHOO "df={} date_str={}"
            (default VNone (request "opt:AAPL:2024-01-19" !! "ticker"))
            (Some [[("strike", VInt 100)]]))
     with
     | Return t => Return (VInt SUCCESS, t)
     | Raise e => Raise e
     end) /\
  ([request "opt:AAPL:2024-01-19"] !! 0%nat
   = Some (request "opt:AAPL:2024-01-19") /\
   In (CallRedisGet (fetch_args Puts "opt:AAPL:2024-01-19"))
      (evs (run_option Puts (request "opt:AAPL:2024-01-19") "sort-by-date")) /\
   get_data_from_redis_key (fetch_args Puts "opt:AAPL:2024-01-19")
   = Return (found option_chain) /\
   option_chain !! "exp_date" = Some (VStr "2024-01-19") /\
   option_chain !! "puts" = Some (VStr "[]") /\
   read_json (VStr "[]") = Return (@nil (list (string * pyval))) /\
   out (run_option Puts (request "opt:AAPL:2024-01-19") "sort-by-date")
   = match
       extract_scrub_dataset
         (ScrubArgs (option_label Puts (request "opt:AAPL:2024-01-19"))
            "sort-by-date" DATAFEED_OPTIONS_YAHOO "df={} date_str={}"
            (default VNone (request "opt:AAPL:2024-01-19" !! "ticker"))
            (Some (@nil (list (string * pyval)))))
     with
     | Return t => Return (VInt SUCCESS, t)
     | Raise e => Raise e
     end).
Proof.
  split.
  - assert (Hin : In (CallRedisGet (fetch_args Calls "opt:AAPL:2024-01-19"))
       (evs (run_option Calls (request "opt:AAPL:2024-01-19")
               "sort-by-date"))).
    { vm_compute. right; left; reflexivity. }
    split; [reflexivity|]. split; [exact Hin|].
    do 4 (split; [reflexivity|]).
    exact (well_formed_record_result Calls [request "opt:AAPL:2024-01-19"]
             0%nat (request "opt:AAPL:2024-01-19") "sort-by-date"
             (fetch_args Calls "opt:AAPL:2024-01-19")
             {[ "status" := VInt 0;
                "rec" := VDict {[ "data" := VDict option_chain ]} ]}
             {[ "data" := VDict option_chain ]} option_chain
             (VStr "2024-01-19") (VStr one_row_json) [[("strike", VInt 100)]]
             eq_refl Hin eq_refl eq_refl eq_refl eq_refl eq_refl eq_refl
             eq_refl).
  - assert (Hin : In (CallRedisGet (fetch_args Puts "opt:AAPL:2024-01-19"))
       (evs (run_option Puts (request "opt:AAPL:2024-01-19")
               "sort-by-date"))).
    { vm_compute. right; left; reflexivity. }
    split; [reflexivity|]. split; [exact Hin|].
    do 4 (split; [reflexivity|]).
    exact (well_formed_record_result Puts [request "opt:AAPL:2024-01-19"]
             0%nat (request "opt:AAPL:2024-01-19") "sort-by-date"
             (fetch_args Puts "opt:AAPL:2024-01-19")
             {[ "status" := VInt 0;
                "rec" := VDict {[ "data" := VDict option_chain ]} ]}
             {[ "data" := VDict option_chain ]} option_chain
             (VStr "2024-01-19") (VStr "[]") (@nil (list (string * pyval)))
             eq_refl Hin eq_refl eq_refl eq_refl eq_refl eq_refl eq_refl
             eq_refl).
Defined.

Lemma decoder_input_is_side_of_SUCCESS_record_witness :
  In (CallReadJson (VStr "[]"))
     (evs (run_option Puts (request "opt:AAPL:2024-01-19") "sort-by-date")) /\
  exists a redis_rec,
    In (CallRedisGet a)
       (evs (run_option Puts (request "opt:AAPL:2024-01-19") "sort-by-date"))
    /\ get_data_from_redis_key a = Return redis_rec /\
    py_path redis_rec ["status"] = inr (VInt SUCCESS) /\
    py_path redis_rec ["rec"; "data"; side_field Puts] = inr (VStr "[]").
Proof.
  assert (Hin : In (CallReadJson (VStr "[]"))
     (evs (run_option Puts (request "opt:AAPL:2024-01-19") "sort-by-date"))).
  { vm_compute. do 5 right; left; reflexivity. }
  split; [exact Hin|].
  exact (decoder_input_is_side_of_SUCCESS_record Puts
           [request "opt:AAPL:2024-01-19"] 0%nat "sort-by-date" (VStr "[]")
           Hin).
Defined.

Lemma scrub_arguments_witness :
  [request "opt:AAPL:2024-01-19"] !! 0%nat
  = Some (request "opt:AAPL:2024-01-19") /\
  In (CallScrub (scrub_input Calls "sort-by-date" VNone
                   (Some [[("strike", VInt 100)]])))
     (evs (run_option Calls (request "opt:AAPL:2024-01-19") "sort-by-date")) /\
  sc_label (scrub_input Calls "sort-by-date" VNone
              (Some [[("strike", VInt 100)]]))
  = option_label Calls (request "opt:AAPL:2024-01-19") /\
  sc_scrub_mode (scrub_input Calls "sort-by-date" VNone
                   (Some [[("strike", VInt 100)]])) = "sort-by-date" /\
  sc_datafeed_type (scrub_input Calls "sort-by-date" VNone
                      (Some [[("strike", VInt 100)]]))
  = DATAFEED_OPTIONS_YAHOO /\
  sc_ds_id (scrub_input Calls "sort-by-date" VNone
              (Some [[("strike", VInt 100)]]))
  = default VNone (request "opt:AAPL:2024-01-19" !! "ticker") /\
  ((sc_df (scrub_input Calls "sort-by-date" VNone
             (Some [[("strike", VInt 100)]])) = None /\
    ~ decode_called
        (evs (run_option Calls (request "opt:AAPL:2024-01-19")
                "sort-by-date"))) \/
   (exists json df,
      In (CallReadJson json)
         (evs (run_option Calls (request "opt:AAPL:2024-01-19")
                 "sort-by-date")) /\
      read_json json = Return df /\
      sc_df (scrub_input Calls "sort-by-date" VNone
               (Some [[("strike", VInt 100)]])) = Some df)).
Proof.
  assert (Hin : In (CallScrub (scrub_input Calls "sort-by-date" VNone
                   (Some [[("strike", VInt 100)]])))
     (evs (run_option Calls (request "opt:AAPL:2024-01-19") "sort-by-date"))).
  { vm_compute. do 8 right; left; reflexivity. }
  split; [reflexivity|]. split; [exact Hin|].
  exact (scrub_arguments Calls [request "opt:AAPL:2024-01-19"] 0%nat
           (request "opt:AAPL:2024-01-19") "sort-by-date"
           (scrub_input Calls "sort-by-date" VNone
              (Some [[("strike", VInt 100)]])) eq_refl Hin).
Defined.

Lemma calls_and_puts_fetch_the_same_record_witness :
  [legacy_request] !! 0%nat = Some legacy_request /\
  In (CallRedisGet (fetch_args Calls "opt:AAPL:2024-01-19"))
     (evs (extract_option_calls_dataset 0%nat "sort-by-date" [legacy_request]))
  /\
  In (CallRedisGet (fetch_args Puts "opt:AAPL:2024-01-19"))
     (evs (extract_option_puts_dataset 0%nat "by-strike" [legacy_request])) /\
  rg_key (fetch_args Calls "opt:AAPL:2024-01-19")
  = rg_key (fetch_args Puts "opt:AAPL:2024-01-19").
Proof.
  assert (Ha : In (CallRedisGet (fetch_args Calls "opt:AAPL:2024-01-19"))
     (evs (extract_option_calls_dataset 0%nat "sort-by-date"
             [legacy_request]))).
  { vm_compute. right; left; reflexivity. }
  assert (Hb : In (CallRedisGet (fetch_args Puts "opt:AAPL:2024-01-19"))
     (evs (extract_option_puts_dataset 0%nat "by-strike" [legacy_request]))).
  { vm_compute. right; left; reflexivity. }
  split; [reflexivity|]. split; [exact Ha|]. split; [exact Hb|].
  exact (proj1 (calls_and_puts_fetch_the_same_record [legacy_request] 0%nat
                  legacy_request "sort-by-date" "by-strike"
                  (fetch_args Calls "opt:AAPL:2024-01-19")
                  (fetch_args Puts "opt:AAPL:2024-01-19")
                  eq_refl Ha Hb)).
Defined.

Lemma delegated_outcome_is_perform_extract_witness :
  [legacy_request] !! 0%nat = Some legacy_request /\
  exists m,
    evs (extract_delegated_dataset News 0%nat "sort-by-date" [legacy_request])
    = [Log INFO "{} - {} - start"
         [default (VStr "extract") (legacy_request !! "label");
          VStr (get_datafeed_str_yahoo (delegated_df_type News))];
       CallPerformExtract (delegated_df_type News)
         (get_datafeed_str_yahoo (delegated_df_type News)) 1%nat m
         "sort-by-date"] /\
    out (extract_delegated_dataset News 0%nat "sort-by-date" [legacy_request])
    = (perform_extract (delegated_df_type News)
         (get_datafeed_str_yahoo (delegated_df_type News)) m
         "sort-by-date").1.
Proof.
  split; [reflexivity|].
  apply (delegated_outcome_is_perform_extract News [legacy_request] 0%nat
           legacy_request "sort-by-date").
  reflexivity.
Defined.

Lemma legacy_pricing_request_passed :
  In (CallPerformExtract 1100 "yahoo" 1%nat SampleBare.legacy_pricing_request
        "sort-by-date")
     (evs (extract_delegated_dataset Pricing 0%nat "sort-by-date"
             [legacy_request])).
Proof. vm_compute. right; left; reflexivity. Defined.

Lemma normalization_touches_only_the_keys_witness :
  [legacy_request] !! 0%nat = Some legacy_request /\
  In (CallPerformExtract 1100 "yahoo" 1%nat SampleBare.legacy_pricing_request
        "sort-by-date")
     (evs (extract_delegated_dataset Pricing 0%nat "sort-by-date"
             [legacy_request])) /\
  "ticker" <> "redis_key" /\ "ticker" <> "s3_key" /\
  SampleBare.legacy_pricing_request !! "ticker" = legacy_request !! "ticker".
Proof.
  split; [reflexivity|]. split; [exact legacy_pricing_request_passed|].
  split; [discriminate|]. split; [discriminate|].
  apply (normalization_touches_only_the_keys Pricing [legacy_request] 0%nat
           legacy_request "sort-by-date" 1100 "yahoo" 1%nat
           SampleBare.legacy_pricing_request "sort-by-date" "ticker" eq_refl
           legacy_pricing_request_passed); discriminate.
Defined.

Lemma request_passed_without_alias :
  In (CallPerformExtract 1102 "yahoo" 1%nat (request "opt:none")
        "sort-by-date")
     (evs (extract_delegated_dataset News 0%nat "sort-by-date"
             [request "opt:none"])).
Proof. vm_compute. right; left; reflexivity. Defined.

Lemma request_without_alias_is_passed_as_is_witness :
  [request "opt:none"] !! 0%nat = Some (request "opt:none") /\
  In (CallPerformExtract 1102 "yahoo" 1%nat (request "opt:none")
        "sort-by-date")
     (evs (extract_delegated_dataset News 0%nat "sort-by-date"
             [request "opt:none"])) /\
  request "opt:none" !! alias_field News = None /\
  request "opt:none" = request "opt:none".
Proof.
  split; [reflexivity|]. split; [exact request_passed_without_alias|].
  split; [reflexivity|].
  exact (request_without_alias_is_passed_as_is News [request "opt:none"]
           0%nat (request "opt:none") "sort-by-date" 1102 "yahoo" 1%nat
           (request "opt:none") "sort-by-date" eq_refl
           request_passed_without_alias eq_refl).
Defined.

Lemma normalization_is_idempotent_witness :
  [legacy_request] !! 0%nat = Some legacy_request /\
  In (CallPerformExtract 1100 "yahoo" 1%nat SampleBare.legacy_pricing_request
        "sort-by-date")
     (evs (extract_delegated_dataset Pricing 0%nat "sort-by-date"
             [legacy_request])) /\
  [legacy_request; SampleBare.legacy_pricing_request] !! 1%nat
  = Some SampleBare.legacy_pricing_request /\
  In (CallPerformExtract 1100 "yahoo" 2%nat SampleBare.legacy_pricing_request
        "sort-by-date")
     (evs (extract_delegated_dataset Pricing 1%nat "sort-by-date"
             [legacy_request; SampleBare.legacy_pricing_request])).
Proof.
  split; [reflexivity|]. split; [exact legacy_pricing_request_passed|].
  split; [reflexivity|].
  exact (normalization_is_idempotent Pricing [legacy_request] 0%nat
           legacy_request "sort-by-date" 1100 "yahoo" 1%nat
           SampleBare.legacy_pricing_request "sort-by-date"
           [legacy_request; SampleBare.legacy_pricing_request] 1%nat eq_refl
           legacy_pricing_request_passed eq_refl).
Defined.

Lemma entry_points_keep_the_heap_witness :
  [legacy_request] !! 0%nat = Some legacy_request /\
  (forall f, exists m',
     hp (extract_delegated_dataset f 0%nat "sort-by-date" [legacy_request])
     = [legacy_request] ++ [m']) /\
  (forall s,
     hp (extract_option_dataset s 0%nat "sort-by-date" [legacy_request])
     = [legacy_request]).
Proof.
  split; [reflexivity|].
  apply (entry_points_keep_the_heap [legacy_request] 0%nat legacy_request
           "sort-by-date").
  reflexivity.
Defined.

End ScenariosMore.
